(** * Elevoniq data pipeline: a shallow embedding of [src/main.py] and
    [src/config.py].

    The pipeline logs into Salesforce, resolves the exported fields of each
    configured object, fetches its records page by page, writes them to a
    workbook sheet or a CSV file, records a [Statistics] entry per object
    and finally rewrites the statistics CSV.

    Modelling choices.
    - Salesforce is an oracle [provider] that answers each call from the
      history of the calls made so far, so failing, paginating or
      recovering services are all instances of it.
    - Python exceptions are the [exn] type; a computation returns [Ok],
      raises [Exc] (side effects already done are kept, as in Python) or is
      [Stuck] when a [while] loop exceeds its iteration budget
      ([loop_fuel]), i.e. the program does not terminate.
    - Side effects that leave the process (workbook sheets, CSV exports,
      sleeps, console output) are appended to an event [trace]; the local
      statistics CSV lives in a small file store [files], so it survives
      from one run to the next. *)

From Stdlib Require Import String Ascii List Bool Arith NArith Lia.
Import ListNotations.
Open Scope string_scope.
Open Scope list_scope.

(** ** Strings, as Python's [str] operations *)

Module Str.

(** [starts_with p s]: [s.startswith(p)]. *)
Fixpoint starts_with (p s : string) : bool :=
  match p, s with
  | EmptyString, _ => true
  | String c p', String d s' => Ascii.eqb c d && starts_with p' s'
  | String _ _, EmptyString => false
  end.

(** [contains p s]: Python's [p in s] on strings. *)
Fixpoint contains (p s : string) : bool :=
  starts_with p s ||
  match s with
  | EmptyString => false
  | String _ s' => contains p s'
  end.

Fixpoint drop (n : nat) (s : string) : string :=
  match n, s with
  | O, _ => s
  | S n', String _ s' => drop n' s'
  | S _, EmptyString => EmptyString
  end.

(** [s.replace(old, new)] for a non-empty [old]: left to right, without
    overlaps; [fuel] bounds the scan and is given [length s + 1] below. *)
Fixpoint replace_fuel (fuel : nat) (old new s : string) : string :=
  match fuel with
  | O => s
  | S f =>
      match s with
      | EmptyString => EmptyString
      | String c s' =>
          if starts_with old s
          then new ++ replace_fuel f old new (drop (String.length old) s)
          else String c (replace_fuel f old new s')
      end
  end.

Definition replace (old new s : string) : string :=
  replace_fuel (S (String.length s)) old new s.

(** [sep.join(xs)]. *)
Fixpoint join (sep : string) (xs : list string) : string :=
  match xs with
  | [] => ""
  | [x] => x
  | x :: xs' => x ++ sep ++ join sep xs'
  end.

(** Decimal rendering of a natural number, [str(n)]. *)
Fixpoint digits_fuel (fuel n : nat) (acc : string) : string :=
  match fuel with
  | O => acc
  | S f =>
      let acc' := String (ascii_of_nat (48 + n mod 10)) acc in
      if Nat.ltb n 10 then acc' else digits_fuel f (n / 10) acc'
  end.

Definition of_nat (n : nat) : string := digits_fuel (S n) n "".

(** [os.path.basename(p)]: what follows the last ['/'] ([cur] is the part
    after the last ['/'] seen so far). *)
Fixpoint basename_from (p cur : string) : string :=
  match p with
  | EmptyString => cur
  | String c p' =>
      if Ascii.eqb c "/"%char then basename_from p' "" else basename_from p' (cur ++ String c "")
  end.

Definition basename (p : string) : string := basename_from p "".

(** [s.endswith(suffix)]. *)
Definition ends_with (suffix s : string) : bool :=
  Nat.leb (String.length suffix) (String.length s)
  && String.eqb (drop (String.length s - String.length suffix) s) suffix.

End Str.

(** ** Values, Python dicts *)

(** JSON scalars returned by Salesforce. *)
Inductive value : Type :=
| VStr (s : string)
| VNum (n : nat)
| VBool (b : bool)
| VNull.

Definition value_eqb (a b : value) : bool :=
  match a, b with
  | VStr x, VStr y => String.eqb x y
  | VNum x, VNum y => Nat.eqb x y
  | VBool x, VBool y => Bool.eqb x y
  | VNull, VNull => true
  | _, _ => false
  end.

Module Dict.
Section Dict.
Context {K V : Type} (keqb : K -> K -> bool).

(** A Python dict: insertion ordered, one entry per key. *)
Definition t := list (K * V).

Fixpoint get (d : t) (k : K) : option V :=
  match d with
  | [] => None
  | (k', v) :: d' => if keqb k k' then Some v else get d' k
  end.

(** [d.get(k, default)]. *)
Definition get_default (d : t) (k : K) (default : V) : V :=
  match get d k with Some v => v | None => default end.

(** [d[k] = v]: an existing key keeps its position, a new key goes last. *)
Fixpoint set (d : t) (k : K) (v : V) : t :=
  match d with
  | [] => [(k, v)]
  | (k', v') :: d' => if keqb k k' then (k', v) :: d' else (k', v') :: set d' k v
  end.

(** [list(d.keys())]. *)
Definition keys (d : t) : list K := map fst d.

End Dict.
End Dict.

(** A Salesforce record, as the JSON object the REST API returns. *)
Definition sobject := Dict.t (K := string) (V := value).

(** ** [config.Config] *)

Module Config.

Definition SF_USERNAME := "sf-user".
Definition SF_PASSWORD := "sf-password".
Definition SF_TOKEN := "sf-token".
Definition SF_DOMAIN := "login".
Definition LOCAL_FOLDER := "files".
Definition LOG_FILE_NAME := "Pipeline_Logs.csv".
Definition CREDENTIALS_FILE := "credentials/google.json".
Definition SCOPES : list string := ["https://www.googleapis.com/auth/drive"].
Definition DRIVE_FOLDER_NAME := "ELEVENIQ".

Definition STANDARD_FIELDS : list string := [
  "Id"; "Name"; "OwnerId"; "CreatedDate"; "LastModifiedDate"; "CreatedById";
  "DeveloperName"; "IsActive"; "SobjectType";
  "BillingStreet"; "BillingCity"; "BillingPostalCode"; "BillingCountry";
  "ShippingStreet"; "ShippingCity"; "ShippingPostalCode"; "ShippingCountry";
  "Phone"; "Email"; "Salutation"; "AccountId"; "Title"; "ContractId"; "OrderId";
  "EndDate"; "EffectiveDate"; "ListPrice"; "OrderItemNumber"; "Product2Id";
  "Quantity"; "ServiceDate"; "UnitPrice"; "TotalPrice"; "Status"; "StageName";
  "ContractName"; "OpportunityId"; "OrderNumber"; "Type";
  "Pricebook2Id"; "RecordTypeId"; "StartDate"; "ContractTerm"; "ExternalId";
  "ProductCode"; "Family"; "IsStandard"; "UseStandardPrice"].

Definition OBJECT_NAMES : list string := [
  "RecordType"; "Account"; "Contact"; "User"; "Work_Order__c"; "Elevator__c";
  "Property__c"; "Property_Unit__c"; "Elevator_Service_Cost__c";
  "Elevator_Document_Check__c"; "Contract"; "Opportunity"; "Product2";
  "Pricebook2"; "PricebookEntry"; "OpportunityLineItem"; "Order"; "OrderItem";
  "OrderElevatorRelation__c"; "Service_Fulfillment__c"; "Elevator_Property__c";
  "OSI_WorkOrder_Item__c"].

End Config.

(** [os.path.join(a, b)] *)
Definition path_join (a b : string) : string := a ++ "/" ++ b.

(** ** The Salesforce service *)

(** Calls the program makes through [simple_salesforce]. *)
Inductive sf_call : Type :=
| CallLogin (username password security_token domain : string)  (** [SalesforceLogin] *)
| CallQueryAll (soql : string)                                   (** [sf.query_all] *)
| CallQuery (soql : string)                                      (** [sf.query] *)
| CallQueryMore (next_records_url : option string).              (** [sf.query_more(url, identifier_is_url=True)] *)

(** A query result dict: [records.get('records', [])],
    [records.get('nextRecordsUrl')] and [records.get('done')] (a missing
    [done] reads as false). *)
Record page : Type := mkPage {
  page_records : list sobject;
  nextRecordsUrl : option string;
  done : bool
}.

Inductive sf_response : Type :=
| RespError (msg : string)                    (** the call raises *)
| RespSession (session_id instance : string)  (** [SalesforceLogin] result *)
| RespPage (p : page).                        (** a query result *)

(** ** Exceptions, outcomes and the program state *)

Inductive exn : Type :=
| Exception (msg : string)         (** [raise Exception(msg)] *)
| SalesforceError (msg : string)   (** raised by a [simple_salesforce] call *)
| KeyError (key : string)
| AttributeError (msg : string)
| TypeError (msg : string)
| ValueError (msg : string)
| EmptyDataError (msg : string)    (** [pandas.errors.EmptyDataError] *)
| IllegalCharacterError (msg : string).  (** [openpyxl.utils.exceptions.IllegalCharacterError] *)

Definition exn_msg (e : exn) : string :=
  match e with
  | Exception m | SalesforceError m | AttributeError m | TypeError m | ValueError m
  | EmptyDataError m | IllegalCharacterError m => m
  | KeyError k => "'" ++ k ++ "'"
  end.

(** A frame of exported records: one dict per row, keyed by column label. *)
Definition frame := list (Dict.t (K := value) (V := value)).

(** A CSV file as pandas reads and writes it: a header and string cells. *)
Record table : Type := mkTable {
  columns : list string;
  rows : list (list (string * string))
}.

(** Observable effects, in the order they happen. *)
Inductive event : Type :=
| EvPrint (msg : string)                    (** [print] / [traceback.print_exc] *)
| EvSleep (attempt : nat)                   (** [time.sleep(2 ** attempt + random.uniform(0, 1))] *)
| EvSheet (sheet_name : string) (df : frame)  (** [df.to_excel(writer, sheet_name=...)] *)
| EvSheetPartial (title : option string)
    (** a sheet [df.to_excel] created (or began to overwrite) before raising:
        [None] when openpyxl refused the title and the sheet kept its
        default one, [Some t] when a cell of sheet [t] was refused *)
| EvCsv (path : string) (df : frame).         (** [df.to_csv(path, index=False)] *)

(** The [Statistics] dataclass; times are readings of the clock. *)
Record Statistics : Type := mkStatistics {
  object_name : string;
  start_time : nat;
  end_time : nat;
  duration : nat;
  last_refresh_date : string
}.

Record world : Type := mkWorld {
  provider : list sf_call -> sf_call -> sf_response; (** answer to a call, given the earlier calls *)
  sf_hist : list sf_call;              (** calls made so far *)
  sf : option (string * string);       (** [self.sf_client.sf]: instance and session id *)
  clock : nat;                         (** [datetime.now()] *)
  today : string;                      (** [datetime.today().strftime('%Y-%m-%d')] *)
  loop_fuel : nat;                     (** iteration budget of [while] loops *)
  trace : list event;
  statistics : list Statistics;        (** [self.sf_client.statistics] *)
  files : list (string * table)        (** local CSV files read back by the program *)
}.

Inductive outcome (A : Type) : Type :=
| Ok (a : A)
| Exc (e : exn)
| Stuck.
Arguments Ok {A} a.
Arguments Exc {A} e.
Arguments Stuck {A}.

(** State and exceptions: an exception keeps the effects made before it. *)
Definition M (A : Type) : Type := world -> outcome A * world.

Definition ret {A} (a : A) : M A := fun w => (Ok a, w).

Definition bind {A B} (c : M A) (k : A -> M B) : M B :=
  fun w =>
    match c w with
    | (Ok a, w') => k a w'
    | (Exc e, w') => (Exc e, w')
    | (Stuck, w') => (Stuck, w')
    end.

Notation "'let*' x ':=' c 'in' k" := (bind c (fun x => k))
  (at level 61, x name, c at next level, right associativity).
Notation "c ;; k" := (bind c (fun _ => k)) (at level 61, right associativity).

Definition raise {A} (e : exn) : M A := fun w => (Exc e, w).
Definition stuck {A} : M A := fun w => (Stuck, w).

(** [try: c except Exception as e: h(e)]; every modelled exception derives
    from [Exception]. *)
Definition catch {A} (c : M A) (h : exn -> M A) : M A :=
  fun w =>
    match c w with
    | (Exc e, w') => h e w'
    | r => r
    end.

Definition emit (ev : event) : M unit :=
  fun w => (Ok tt, mkWorld (provider w) (sf_hist w) (sf w) (clock w) (today w)
                      (loop_fuel w) (trace w ++ [ev]) (statistics w) (files w)).

Definition print (msg : string) : M unit := emit (EvPrint msg).
Definition sleep (attempt : nat) : M unit := emit (EvSleep attempt).

Definition now : M nat :=
  fun w => (Ok (clock w), mkWorld (provider w) (sf_hist w) (sf w) (S (clock w)) (today w)
                             (loop_fuel w) (trace w) (statistics w) (files w)).

Definition get_today : M string := fun w => (Ok (today w), w).
Definition get_loop_fuel : M nat := fun w => (Ok (loop_fuel w), w).

(** Issue a Salesforce call: it is logged, then answered by the provider. *)
Definition sf_request (c : sf_call) : M sf_response :=
  fun w =>
    let r := provider w (sf_hist w) c in
    let w' := mkWorld (provider w) (sf_hist w ++ [c]) (sf w) (clock w) (today w)
                (loop_fuel w) (trace w) (statistics w) (files w) in
    match r with
    | RespError m => (Exc (SalesforceError m), w')
    | _ => (Ok r, w')
    end.

Definition set_sf (conn : option (string * string)) : M unit :=
  fun w => (Ok tt, mkWorld (provider w) (sf_hist w) conn (clock w) (today w)
                      (loop_fuel w) (trace w) (statistics w) (files w)).

(** [self.sf.<method>] with [self.sf] still [None] raises. *)
Definition require_sf (method : string) : M unit :=
  fun w =>
    match sf w with
    | Some _ => (Ok tt, w)
    | None => (Exc (AttributeError ("'NoneType' object has no attribute '" ++ method ++ "'")), w)
    end.

Definition append_statistics (s : Statistics) : M unit :=
  fun w => (Ok tt, mkWorld (provider w) (sf_hist w) (sf w) (clock w) (today w)
                      (loop_fuel w) (trace w) (statistics w ++ [s]) (files w)).

Definition get_statistics : M (list Statistics) := fun w => (Ok (statistics w), w).

(** A query result: any other answer fails on [records.get]. *)
Definition expect_page (r : sf_response) : M page :=
  match r with
  | RespPage p => ret p
  | _ => raise (AttributeError "'tuple' object has no attribute 'get'")
  end.

(** ** [SalesforceClient] *)

Module SalesforceClient.

(** The retry loop written out in [login] and [fetch_data]:
    [for i in range(retries): try: <body> (returning) except Exception as e:
     print(...); time.sleep(2 ** i + random.uniform(0, 1))], then
    [raise <exhausted>] once the range is used up. [i] is the current
    attempt index, [n] the attempts left. *)
Fixpoint retry_loop {A} (label : string) (retries i n : nat) (body : M A)
    (exhausted : exn) : M A :=
  match n with
  | O => raise exhausted
  | S n' =>
      catch body (fun e =>
        print (label ++ " attempt " ++ Str.of_nat (S i) ++ "/" ++ Str.of_nat retries
               ++ " failed: " ++ exn_msg e ++ ". Retrying...") ;;
        sleep i ;;
        retry_loop label retries (S i) n' body exhausted)
  end.

Definition retry_range {A} (label : string) (retries : nat) (body : M A)
    (exhausted : exn) : M A :=
  retry_loop label retries 0 retries body exhausted.

Definition login_call : sf_call :=
  CallLogin Config.SF_USERNAME Config.SF_PASSWORD Config.SF_TOKEN Config.SF_DOMAIN.

(** Body of the [try] in [login]. *)
Definition login_body : M unit :=
  let* r := sf_request login_call in
  match r with
  | RespSession session_id instance =>
      set_sf (Some (instance, session_id)) ;;
      print "Salesforce login successful!"
  | _ => raise (TypeError "cannot unpack the login result")
  end.

Definition login : M unit :=
  retry_range "Login" 5 login_body
    (Exception "Max retries reached, Salesforce login failed.").

(** [field[k]] *)
Definition getitem (d : sobject) (k : string) : M value :=
  match Dict.get String.eqb d k with
  | Some v => ret v
  | None => raise (KeyError k)
  end.

(** The filter of [get_field_labels] on a string identifier:
    [qualified_name in Config.STANDARD_FIELDS or '__c' in qualified_name]. *)
Definition keep_field (qualified_name : string) : bool :=
  existsb (String.eqb qualified_name) Config.STANDARD_FIELDS
  || Str.contains "__c" qualified_name.

Definition field_label_map := Dict.t (K := string) (V := value).

(** The [for field in field_metadata.get('records', [])] loop. A non-string
    identifier is never in [STANDARD_FIELDS], and [in] on it raises. *)
Fixpoint collect_fields (fields : list sobject) (acc : field_label_map)
    : M field_label_map :=
  match fields with
  | [] => ret acc
  | field :: rest =>
      let* qualified_name := getitem field "QualifiedApiName" in
      match qualified_name with
      | VStr q =>
          if keep_field q then
            let* label := getitem field "Label" in
            collect_fields rest (Dict.set String.eqb acc q label)
          else collect_fields rest acc
      | _ => raise (TypeError "argument of type is not iterable")
      end
  end.

Definition field_query (object_name : string) : string :=
  "SELECT QualifiedApiName, Label, ValueTypeId FROM FieldDefinition WHERE EntityDefinition.QualifiedApiName = '"
  ++ object_name ++ "'".

Definition get_field_labels (object_name : string) : M field_label_map :=
  require_sf "query_all" ;;
  let* r := sf_request (CallQueryAll (field_query object_name)) in
  let* field_metadata := expect_page r in
  collect_fields (page_records field_metadata) [].

Definition select_query (object_name : string) (fields : list string) : string :=
  "SELECT " ++ Str.join ", " fields ++ " FROM " ++ object_name.

(** [while not records.get('done'): records = self.sf.query_more(...);
    all_records.extend(...); next_records_url = ...]; [fuel] bounds the
    iterations, running out of it is non-termination. *)
Fixpoint paginate (fuel : nat) (is_done : bool) (all_records : list sobject)
    (next_url : option string) : M (list sobject) :=
  if is_done then ret all_records
  else
    match fuel with
    | O => stuck
    | S f =>
        require_sf "query_more" ;;
        let* r := sf_request (CallQueryMore next_url) in
        let* records := expect_page r in
        paginate f (done records) (all_records ++ page_records records)
          (nextRecordsUrl records)
    end.

(** Body of the [try] in [fetch_data]: the first query and all its pages. *)
Definition fetch_body (soql : string) : M (list sobject) :=
  require_sf "query" ;;
  let* r := sf_request (CallQuery soql) in
  let* records := expect_page r in
  let* fuel := get_loop_fuel in
  paginate fuel (done records) (page_records records) (nextRecordsUrl records).

Definition fetch_data (object_name : string) (fields : list string)
    : M (list sobject) :=
  let soql := select_query object_name fields in
  print ("Executing query: " ++ soql) ;;
  retry_range "Query" 5 (fetch_body soql)
    (Exception ("Max retries reached, query failed for " ++ object_name)).

End SalesforceClient.

(** ** Local files *)

Definition file_exists (path : string) : M bool :=
  fun w => (Ok (existsb (fun pf => String.eqb (fst pf) path) (files w)), w).

Definition read_file (path : string) : M table :=
  fun w =>
    match Dict.get String.eqb (files w) path with
    | Some t => (Ok t, w)
    | None => (Exc (Exception ("No such file or directory: " ++ path)), w)
    end.

Definition write_file (path : string) (t : table) : M unit :=
  fun w => (Ok tt, mkWorld (provider w) (sf_hist w) (sf w) (clock w) (today w)
                      (loop_fuel w) (trace w) (statistics w)
                      (Dict.set String.eqb (files w) path t)).

(** ** pandas, as far as the pipeline uses it *)

Module Pandas.

(** [pd.DataFrame(list_of_dicts)]: the columns are the keys in order of
    first appearance, so an empty list gives a frame without columns. *)
Fixpoint add_columns (cols : list string) (ks : list string) : list string :=
  match ks with
  | [] => cols
  | k :: ks' =>
      add_columns (if existsb (String.eqb k) cols then cols else cols ++ [k]) ks'
  end.

Definition DataFrame (rs : list (list (string * string))) : table :=
  mkTable (fold_left (fun cols r => add_columns cols (map fst r)) rs []) rs.

(** [pd.concat([a, b], ignore_index=True)] *)
Definition concat (a b : table) : table :=
  mkTable (add_columns (columns a) (columns b)) (rows a ++ rows b).

(** [df.to_csv(path, index=False)] *)
Definition to_csv (path : string) (df : table) : M unit := write_file path df.

(** [pd.read_csv(path)]: a file written from a frame without columns holds
    no header, and reading it raises [EmptyDataError]. *)
Definition read_csv (path : string) : M table :=
  let* t := read_file path in
  match columns t with
  | [] => raise (EmptyDataError "No columns to parse from file")
  | _ => ret t
  end.

(** [df.to_excel(writer, sheet_name=..., index=False)] with the openpyxl
    engine, for the frames the export builds. *)

(** The first character of [s] satisfying [p]. *)
Fixpoint find_char (p : ascii -> bool) (s : string) : option ascii :=
  match s with
  | EmptyString => None
  | String c s' => if p c then Some c else find_char p s'
  end.

(** [openpyxl.cell.cell.ILLEGAL_CHARACTERS_RE]:
    [[\000-\010]|[\013-\014]|[\016-\037]]. *)
Definition illegal_char (c : ascii) : bool :=
  let n := nat_of_ascii c in
  Nat.leb n 8 || Nat.eqb n 11 || Nat.eqb n 12 || (Nat.leb 14 n && Nat.leb n 31).

(** [openpyxl.workbook.child.INVALID_TITLE_REGEX]: one of the characters
    backslash, [*], [?], [:], [/], [[] and []]. *)
Definition invalid_title_char (c : ascii) : bool :=
  existsb (Nat.eqb (nat_of_ascii c)) [92; 42; 63; 58; 47; 91; 93].

(** The [ValueError] the [Worksheet.title] setter raises, if any. *)
Definition title_error (title : string) : option string :=
  match title with
  | EmptyString => Some "Title must have at least one character"
  | _ =>
      match find_char invalid_title_char title with
      | Some c => Some ("Invalid character " ++ String c EmptyString ++ " found in sheet title")%string
      | None => None
      end
  end.

(** [pd.DataFrame(list_of_dicts).columns]: the keys in order of first
    appearance. *)
Definition frame_columns (df : frame) : list value :=
  fold_left (fun cols r =>
      fold_left (fun cs k => if existsb (value_eqb k) cs then cs else cs ++ [k])
        (Dict.keys r) cols)
    df [].

(** The cells [to_excel] writes, in order: the header row, then the body
    column by column ([ExcelFormatter.get_formatted_cells]); a key a row
    lacks is NaN, written as [na_rep = '']. *)
Definition excel_cells (df : frame) : list value :=
  let cols := frame_columns df in
  cols ++ flat_map (fun c => map (fun r => Dict.get_default value_eqb r c (VStr "")) df) cols.

(** [Cell.check_string]: the string, cut to 32767 characters, if it holds
    an illegal character. Only strings are checked. *)
Definition refused_cell (v : value) : option string :=
  match v with
  | VStr s =>
      let s' := substring 0 (N.to_nat 32767) s in
      match find_char illegal_char s' with Some _ => Some s' | None => None end
  | _ => None
  end.

(** The first cell openpyxl refuses, in writing order. *)
Fixpoint first_refused (cells : list value) : option string :=
  match cells with
  | [] => None
  | v :: cells' =>
      match refused_cell v with Some s => Some s | None => first_refused cells' end
  end.

(** [ExcelFormatter.write] refuses a frame beyond 1048576 rows or 16384
    columns before touching the workbook. [_write_cells] then creates the
    sheet and sets its title, which may raise [ValueError] (the sheet keeps
    its default title), and writes the cells; a refused string raises
    [IllegalCharacterError] at that cell, the sheet keeping the cells
    written before it. *)
Definition to_excel (sheet_name : string) (df : frame) : M unit :=
  let num_rows := length df in
  let num_cols := length (frame_columns df) in
  if N.ltb 1048576 (N.of_nat num_rows) || N.ltb 16384 (N.of_nat num_cols) then
    raise (ValueError ("This sheet is too large! Your sheet size is: " ++ Str.of_nat num_rows
                       ++ ", " ++ Str.of_nat num_cols
                       ++ " Max sheet size is: 1048576, 16384"))
  else
    match title_error sheet_name with
    | Some msg => emit (EvSheetPartial None) ;; raise (ValueError msg)
    | None =>
        match first_refused (excel_cells df) with
        | Some s =>
            emit (EvSheetPartial (Some sheet_name)) ;;
            raise (IllegalCharacterError (s ++ " cannot be used in worksheets."))
        | None => emit (EvSheet sheet_name df)
        end
    end.

(** [to_excel] writes the whole frame without raising. *)
Definition excel_accepts (sheet_name : string) (df : frame) : bool :=
  negb (N.ltb 1048576 (N.of_nat (length df)) || N.ltb 16384 (N.of_nat (length (frame_columns df))))
  && match title_error sheet_name with None => true | Some _ => false end
  && match first_refused (excel_cells df) with None => true | Some _ => false end.

End Pandas.

(** ** [DataPipeline] *)

Module DataPipeline.

(** [{v: k for k, v in field_label_map.items()}] *)
Definition invert (m : SalesforceClient.field_label_map)
    : Dict.t (K := value) (V := string) :=
  fold_left (fun acc kv => Dict.set value_eqb acc (snd kv) (fst kv)) m [].

(** [{field_label: record.get(field_api, '') for field_label, field_api in
    fieldname_mapping.items()}] *)
Definition build_row (fieldname_mapping : Dict.t (K := value) (V := string))
    (record : sobject) : Dict.t (K := value) (V := value) :=
  fold_left (fun row la =>
      Dict.set value_eqb row (fst la) (Dict.get_default String.eqb record (snd la) (VStr "")))
    fieldname_mapping [].

(** The row transform of [export_salesforce_object]. *)
Definition build_frame (m : SalesforceClient.field_label_map)
    (records : list sobject) : frame :=
  map (build_row (invert m)) records.

Definition sheet_name (object_name : string) : string :=
  Str.replace "_" " " (Str.replace "__c" "" object_name).

Definition csv_path (object_name : string) : string :=
  path_join Config.LOCAL_FOLDER (object_name ++ ".csv").

(** [if records: ...]: the save step. The CSV goes to the local folder
    [Config.ensure_folders] created; as for every file the model writes,
    the file system accepts it (disk and permission errors are not
    modelled). The sheet write can raise, see [Pandas.to_excel]. *)
Definition save_records (object_name : string) (m : SalesforceClient.field_label_map)
    (records : list sobject) : M unit :=
  match records with
  | [] => ret tt
  | _ =>
      let df := build_frame m records in
      (if N.leb 1000000 (N.of_nat (length records))
       then emit (EvCsv (csv_path object_name) df)
       else Pandas.to_excel (sheet_name object_name) df) ;;
      print ("Data for " ++ object_name ++ " saved.")
  end.

(** The [try] block of [export_salesforce_object]. *)
Definition export_body (object_name : string) (start_time : nat) : M unit :=
  let* field_label_map := SalesforceClient.get_field_labels object_name in
  let fields := Dict.keys field_label_map in
  let* records := SalesforceClient.fetch_data object_name fields in
  save_records object_name field_label_map records ;;
  let* end_time := now in
  let duration := end_time - start_time in
  let* refresh := get_today in
  append_statistics (mkStatistics object_name start_time end_time duration refresh) ;;
  print ("End Time: " ++ Str.of_nat end_time) ;;
  print ("Duration: " ++ Str.of_nat duration ++ " seconds").

(** The lines before the [try] of [export_salesforce_object]. *)
Definition export_prelude (object_name : string) : M nat :=
  let* start_time := now in
  print ("Processing object: " ++ object_name) ;;
  print ("Start Time: " ++ Str.of_nat start_time) ;;
  ret start_time.

(** [async def export_salesforce_object(self, object_name, writer)]: the
    coroutine has no [await], so it runs as one step of the event loop. *)
Definition export_salesforce_object (object_name : string) : M unit :=
  let* start_time := export_prelude object_name in
  catch (export_body object_name start_time)
    (fun e => print ("Error processing " ++ object_name ++ ": " ++ exn_msg e) ;;
              print "Traceback (most recent call last)").

Definition stat_row (s : Statistics) : list (string * string) :=
  [("Object Name", object_name s); ("Start Time", Str.of_nat (start_time s));
   ("End Time", Str.of_nat (end_time s));
   ("Duration (Seconds)", Str.of_nat (duration s));
   ("Last Refresh Date", last_refresh_date s)].

Definition log_file : string := path_join Config.LOCAL_FOLDER Config.LOG_FILE_NAME.

Definition save_statistics : M unit :=
  let* stats := get_statistics in
  let stats_data := map stat_row stats in
  let* exists_ := file_exists log_file in
  let* df :=
    if exists_ then
      let* existing_df := Pandas.read_csv log_file in
      ret (Pandas.concat existing_df (Pandas.DataFrame stats_data))
    else ret (Pandas.DataFrame stats_data) in
  Pandas.to_csv log_file df ;;
  print ("Statistics saved to " ++ log_file).

End DataPipeline.

(** ** asyncio *)

Module Asyncio.

(** A coroutine as the atomic steps the event loop runs between two of its
    suspension points ([await]s that yield). *)
Definition coroutine := list (M unit).

(** The event loop of [asyncio.gather]: a FIFO ready queue; the task at the
    head runs one step, then goes to the back. A step that raises stops the
    gather (no export step raises, see [export_never_raises]). [fuel] is
    [gather_fuel], which always suffices. *)
Fixpoint run_ready (fuel : nat) (ready : list coroutine) : M unit :=
  match fuel with
  | O => ret tt
  | S f =>
      match ready with
      | [] => ret tt
      | [] :: q => run_ready f q
      | (step :: rest) :: q => step ;; run_ready f (q ++ [rest])
      end
  end.

Definition gather_fuel (tasks : list coroutine) : nat :=
  fold_right (fun c n => S (length c + n)) 0 tasks.

Definition gather (tasks : list coroutine) : M unit :=
  run_ready (gather_fuel tasks) tasks.

(** Which context-manager protocol a class implements. *)
Record cm_protocol : Type := mkProtocol {
  has_aenter_aexit : bool;   (** [__aenter__] and [__aexit__] *)
  has_enter_exit : bool      (** [__enter__] and [__exit__] *)
}.

(** [pandas.ExcelWriter] defines [__enter__] and [__exit__] only. *)
Definition ExcelWriter : cm_protocol := mkProtocol false true.

Definition writer_error : string :=
  "'ExcelWriter' object does not support the asynchronous context manager protocol".

(** [async with mgr: body]: the manager must be an asynchronous one. *)
Definition async_with (cls : cm_protocol) (body : M unit) : M unit :=
  if has_aenter_aexit cls then body
  else raise (TypeError writer_error).

End Asyncio.

Module Pipeline.
Import DataPipeline.

Definition export_task (object_name : string) : Asyncio.coroutine :=
  [export_salesforce_object object_name].

(** The [async with] block of [run]. *)
Definition export_all (objects : list string) : M unit :=
  Asyncio.gather (map export_task objects).

(** Google Drive authentication, folder lookup and upload of every [.xlsx]
    and [.csv] file; no property below concerns it, it is one event. *)
Definition drive_upload : M unit := print "Google Drive upload".

(** [run], with the writer class as a parameter. *)
Definition run_with (writer_cls : Asyncio.cm_protocol) (objects : list string) : M unit :=
  catch (
    SalesforceClient.login ;;
    Asyncio.async_with writer_cls (export_all objects) ;;
    save_statistics ;;
    drive_upload ;;
    print "Pipeline completed successfully!")
  (fun e => print ("Pipeline failed: " ++ exn_msg e) ;;
            print "Traceback (most recent call last)").

Definition run : M unit := run_with Asyncio.ExcelWriter Config.OBJECT_NAMES.

End Pipeline.

(** ** Google Drive, as [GoogleDriveClient] uses it *)

Module GoogleDrive.

Definition folder_mime : string := "application/vnd.google-apps.folder".

(** A Drive file, with the metadata the client reads or sets. *)
Record file : Type := mkFile {
  id : string;
  name : string;
  mimeType : string;
  trashed : bool;
  parents : list string;
  revision : nat               (** bumped by every [files().update] *)
}.

(** [google.oauth2.credentials.Credentials], as far as [authenticate] reads it. *)
Record creds : Type := mkCreds {
  valid : bool;
  expired : bool;
  refresh_token : bool         (** a refresh token is present *)
}.

(** The JSON held in [Config.CREDENTIALS_FILE]: the fields of an authorized
    user (what [creds.to_json()] writes) and whether it also holds an
    ["installed"] or ["web"] client configuration (what
    [InstalledAppFlow.from_client_secrets_file] reads). *)
Record cred_json : Type := mkCredJson {
  authorized_user : option creds;
  client_config : bool
}.

(** The values of an upload log dict. *)
Inductive logv : Type :=
| LStr (s : string)
| LTime (t : nat)
| LNum (n : nat)
| LBool (b : bool).

Definition upload_log := Dict.t (K := string) (V := logv).

Inductive error : Type :=
| HttpError (status : nat) (reason : string)   (** [googleapiclient.errors.HttpError] *)
| FileNotFoundError (path : string)
| ValueError (msg : string)
| RefreshError (msg : string)                  (** [google.auth.exceptions.RefreshError] *)
| AttrError (msg : string).                    (** [AttributeError] *)

Definition error_msg (e : error) : string :=
  match e with
  | HttpError st r => "<HttpError " ++ Str.of_nat st ++ " " ++ r ++ ">"
  | FileNotFoundError p => "[Errno 2] No such file or directory: '" ++ p ++ "'"
  | ValueError m | RefreshError m | AttrError m => m
  end.

Record state : Type := mkState {
  drive : list file;            (** Drive's files, in the order [files().list] returns them *)
  next_id : nat;                (** the next file id Drive hands out *)
  reachable : bool;             (** when [false], every API call fails *)
  refresh_ok : bool;            (** the token endpoint honours the refresh token *)
  dclock : nat;                 (** [datetime.now()] *)
  local : list string;          (** [os.listdir(Config.LOCAL_FOLDER)] *)
  cred_file : option cred_json; (** [Config.CREDENTIALS_FILE], if it exists *)
  service : bool;               (** [self.service] is set *)
  folder_id : option string;    (** [self.folder_id] *)
  logs : list upload_log;       (** [DataPipeline.logs] *)
  out : list string             (** printed lines *)
}.

Definition with_drive (d : list file) (n : nat) (s : state) : state :=
  mkState d n (reachable s) (refresh_ok s) (dclock s) (local s) (cred_file s) (service s)
    (folder_id s) (logs s) (out s).

Definition with_clock (c : nat) (s : state) : state :=
  mkState (drive s) (next_id s) (reachable s) (refresh_ok s) c (local s) (cred_file s)
    (service s) (folder_id s) (logs s) (out s).

Definition with_cred_file (j : option cred_json) (s : state) : state :=
  mkState (drive s) (next_id s) (reachable s) (refresh_ok s) (dclock s) (local s) j
    (service s) (folder_id s) (logs s) (out s).

Definition with_service (b : bool) (s : state) : state :=
  mkState (drive s) (next_id s) (reachable s) (refresh_ok s) (dclock s) (local s)
    (cred_file s) b (folder_id s) (logs s) (out s).

Definition with_folder_id (f : option string) (s : state) : state :=
  mkState (drive s) (next_id s) (reachable s) (refresh_ok s) (dclock s) (local s)
    (cred_file s) (service s) f (logs s) (out s).

Definition with_logs (l : list upload_log) (s : state) : state :=
  mkState (drive s) (next_id s) (reachable s) (refresh_ok s) (dclock s) (local s)
    (cred_file s) (service s) (folder_id s) l (out s).

Definition with_out (o : list string) (s : state) : state :=
  mkState (drive s) (next_id s) (reachable s) (refresh_ok s) (dclock s) (local s)
    (cred_file s) (service s) (folder_id s) (logs s) o.

(** State and exceptions, as [M] but over [state]. *)
Inductive result (A : Type) : Type :=
| Done (a : A)
| Raised (e : error).
Arguments Done {A} a.
Arguments Raised {A} e.

Definition DM (A : Type) : Type := state -> result A * state.

Definition dret {A} (a : A) : DM A := fun s => (Done a, s).

Definition dbind {A B} (c : DM A) (k : A -> DM B) : DM B :=
  fun s =>
    match c s with
    | (Done a, s') => k a s'
    | (Raised e, s') => (Raised e, s')
    end.

Notation "'let!' x ':=' c 'in' k" := (dbind c (fun x => k))
  (at level 61, x name, c at next level, right associativity).

Definition draise {A} (e : error) : DM A := fun s => (Raised e, s).

(** [try: c except Exception as e: h(e)] *)
Definition dtry {A} (c : DM A) (h : error -> DM A) : DM A :=
  fun s =>
    match c s with
    | (Raised e, s') => h e s'
    | r => r
    end.

Definition dnow : DM nat := fun s => (Done (dclock s), with_clock (S (dclock s)) s).
Definition dprint (msg : string) : DM unit := fun s => (Done tt, with_out (out s ++ [msg]) s).
Definition get_folder_id : DM (option string) := fun s => (Done (folder_id s), s).
Definition set_folder_id (f : option string) : DM unit := fun s => (Done tt, with_folder_id f s).
Definition listdir : DM (list string) := fun s => (Done (local s), s).
Definition append_log (l : upload_log) : DM unit := fun s => (Done tt, with_logs (logs s ++ [l]) s).

(** A call through [self.service]: it must have been built, and Drive
    must answer. *)
Definition api {A} (c : DM A) : DM A :=
  fun s =>
    if negb (service s) then (Raised (AttrError "'NoneType' object has no attribute 'files'"), s)
    else if reachable s then c s
    else (Raised (HttpError 503 "Service Unavailable"), s).

(** The two query forms the client sends, and which files Drive returns
    for them: a non-trashed folder of that name, and a non-trashed file of
    that name with that parent. *)
Definition folder_query_of (n : string) : string :=
  "name='" ++ n ++ "' and mimeType='" ++ folder_mime ++ "' and trashed=false".

Definition in_folder_query_of (n p : string) : string :=
  "name='" ++ n ++ "' and '" ++ p ++ "' in parents and trashed=false".

Definition satisfies (q : string) (f : file) : bool :=
  negb (trashed f) &&
  ((String.eqb q (folder_query_of (name f)) && String.eqb (mimeType f) folder_mime)
   || existsb (fun p => String.eqb q (in_folder_query_of (name f) p)) (parents f)).

(** [service.files().list(q=q, ...).execute()['files']] *)
Definition files_list (q : string) : DM (list file) :=
  api (fun s => (Done (filter (satisfies q) (drive s)), s)).

Definition live_id (s : state) (p : string) : bool :=
  existsb (fun f => String.eqb (id f) p && negb (trashed f)) (drive s).

(** [service.files().create(body=..., ...).execute()['id']]: the parents
    must be existing files. *)
Definition files_create (n mime : string) (ps : list string) : DM string :=
  api (fun s =>
    if forallb (live_id s) ps then
      let i := ("file-" ++ Str.of_nat (next_id s))%string in
      (Done i, with_drive (drive s ++ [mkFile i n mime false ps 1]) (S (next_id s)) s)
    else (Raised (HttpError 404 "File not found"), s)).

Definition bump (i : string) (f : file) : file :=
  if String.eqb (id f) i
  then mkFile (id f) (name f) (mimeType f) (trashed f) (parents f) (S (revision f))
  else f.

(** [service.files().update(fileId=i, media_body=media).execute()] *)
Definition files_update (i : string) : DM unit :=
  api (fun s =>
    if existsb (fun f => String.eqb (id f) i) (drive s)
    then (Done tt, with_drive (map (bump i) (drive s)) (next_id s) s)
    else (Raised (HttpError 404 "File not found"), s)).

(** [MediaFileUpload(file_path, resumable=True)] opens the local file. *)
Definition media_file_upload (file_path : string) : DM unit :=
  fun s =>
    if existsb (fun n => String.eqb (path_join Config.LOCAL_FOLDER n) file_path) (local s)
    then (Done tt, s) else (Raised (FileNotFoundError file_path), s).

(** The MIME type [MediaFileUpload] guesses from the file name. *)
Definition guess_type (file_path : string) : string :=
  if Str.ends_with ".csv" file_path then "text/csv"
  else if Str.ends_with ".xlsx" file_path
  then "application/vnd.openxmlformats-officedocument.spreadsheetml.sheet"
  else "application/octet-stream".

(** [Credentials.from_authorized_user_file] when the file exists. *)
Definition load_creds : DM (option creds) :=
  fun s =>
    match cred_file s with
    | None => (Done None, s)
    | Some j =>
        match authorized_user j with
        | Some c => (Done (Some c), s)
        | None => (Raised (ValueError "Authorized user info was not in the expected format"), s)
        end
    end.

(** [creds.refresh(Request())] *)
Definition refresh (c : creds) : DM creds :=
  fun s =>
    if refresh_ok s then (Done (mkCreds true false (refresh_token c)), s)
    else (Raised (RefreshError "invalid_grant: Token has been expired or revoked."), s).

(** [InstalledAppFlow.from_client_secrets_file(Config.CREDENTIALS_FILE, ...)]
    and [flow.run_local_server(port=0)]: the user grants access. *)
Definition run_flow : DM creds :=
  fun s =>
    match cred_file s with
    | None => (Raised (FileNotFoundError Config.CREDENTIALS_FILE), s)
    | Some j =>
        if client_config j then (Done (mkCreds true false true), s)
        else (Raised (ValueError "Client secrets must be for a web or installed app."), s)
    end.

(** [token.write(creds.to_json())] into [Config.CREDENTIALS_FILE]. *)
Definition write_token (c : creds) : DM unit :=
  fun s => (Done tt, with_cred_file (Some (mkCredJson (Some c) false)) s).

(** [self.service = build('drive', 'v3', credentials=creds)] *)
Definition build_service : DM unit := fun s => (Done tt, with_service true s).

(** [log.update({...})] *)
Definition log_update (log : upload_log) (kvs : list (string * logv)) : upload_log :=
  fold_left (fun d kv => Dict.set String.eqb d (fst kv) (snd kv)) kvs log.

(** Python's [str(None)] inside an f-string. *)
Definition py_str (o : option string) : string :=
  match o with Some x => x | None => "None" end.

Definition nl : string := String (ascii_of_nat 10) "".

End GoogleDrive.

Module GoogleDriveClient.
Import GoogleDrive.

Definition authenticate : DM unit :=
  let! creds := load_creds in
  let! _ :=
    if negb (match creds with Some c => valid c | None => false end) then
      let! creds' :=
        match creds with
        | Some c => if expired c && refresh_token c then refresh c else run_flow
        | None => run_flow
        end in
      write_token creds'
    else dret tt in
  let! _ := build_service in
  dprint "Google Drive authentication successful!".

Definition folder_query : string :=
  "name='" ++ Config.DRIVE_FOLDER_NAME
  ++ "' and mimeType='application/vnd.google-apps.folder' and trashed=false".

Definition get_or_create_folder : DM unit :=
  let! folders := files_list folder_query in
  match folders with
  | f :: _ => set_folder_id (Some (id f))
  | [] =>
      let! fid := files_create Config.DRIVE_FOLDER_NAME "application/vnd.google-apps.folder" [] in
      set_folder_id (Some fid)
  end.

(** The [try] block of [upload_file]. *)
Definition upload_try (file_path file_name : string) (log : upload_log) (start_time : nat)
    : DM upload_log :=
  let! fid := get_folder_id in
  let query := ("name='" ++ file_name ++ "' and '" ++ py_str fid
               ++ "' in parents and trashed=false")%string in
  let! results := files_list query in
  let file_id := match results with f :: _ => Some (id f) | [] => None end in
  let! _ := media_file_upload file_path in
  let! _ :=
    match file_id with
    | Some i => files_update i
    | None =>
        let! _ := files_create file_name (guess_type file_path) [py_str fid] in
        dret tt
    end in
  let! end_time := dnow in
  dret (log_update log
    [("End Date Time", LTime end_time);
     ("Duration (seconds)", LNum (end_time - start_time));
     ("Is Success", LBool true);
     ("Message", LStr ("File '" ++ file_name ++ "' uploaded successfully."))]).

(** The [except Exception as e] block of [upload_file]. *)
Definition upload_except (log : upload_log) (start_time : nat) (e : error) : DM upload_log :=
  let! end_time := dnow in
  dret (log_update log
    [("End Date Time", LTime end_time);
     ("Duration (seconds)", LNum (end_time - start_time));
     ("Is Success", LBool false);
     ("Message", LStr ("Error: " ++ error_msg e ++ nl ++ "Traceback: "
                       ++ "Traceback (most recent call last)"))]).

Definition upload_file (file_path : string) : DM upload_log :=
  let file_name := Str.basename file_path in
  let! start_time := dnow in
  let log := [("Object Name", LStr file_name); ("Operation", LStr "Upload Data");
              ("Start Date Time", LTime start_time)] in
  dtry (upload_try file_path file_name log start_time) (upload_except log start_time).

End GoogleDriveClient.

(** The Google Drive part of [run]. *)
Module DriveUpload.
Import GoogleDrive.

(** [filename.endswith(('.xlsx', '.csv'))] *)
Definition is_export_file (filename : string) : bool :=
  Str.ends_with ".xlsx" filename || Str.ends_with ".csv" filename.

(** [for filename in os.listdir(Config.LOCAL_FOLDER): ...] *)
Fixpoint upload_files (filenames : list string) : DM unit :=
  match filenames with
  | [] => dret tt
  | filename :: rest =>
      let! _ :=
        if is_export_file filename then
          let! log := GoogleDriveClient.upload_file (path_join Config.LOCAL_FOLDER filename) in
          append_log log
        else dret tt in
      upload_files rest
  end.

(** [authenticate()], [get_or_create_folder()] and the upload loop. *)
Definition drive_phase : DM unit :=
  let! _ := GoogleDriveClient.authenticate in
  let! _ := GoogleDriveClient.get_or_create_folder in
  let! filenames := listdir in
  upload_files filenames.

End DriveUpload.

(** * Scenarios: services and inputs the properties are stated on *)

Module FieldResolution.
Import SalesforceClient.

(** A [FieldDefinition] row as the metadata query returns it. *)
Definition field_definition (qualified_name : string) (label : value) : sobject :=
  [("QualifiedApiName", VStr qualified_name); ("Label", label)].

(** One iteration of the [get_field_labels] loop on a well-formed row. *)
Definition resolve_step (acc : field_label_map) (ql : string * value) : field_label_map :=
  if keep_field (fst ql) then Dict.set String.eqb acc (fst ql) (snd ql) else acc.

End FieldResolution.

Module Paging.

(** The [nextRecordsUrl] Salesforce hands out for page [i]. *)
Definition page_url (i : nat) : string :=
  "/services/data/v59.0/query/01gD0000002HU6KIAW-" ++ Str.of_nat i.

(** Page [i] of a page sequence: [done] on the last page only. *)
Definition page_at (pages : list (list sobject)) (i : nat) : page :=
  mkPage (nth i pages [])
    (if Nat.ltb (S i) (length pages) then Some (page_url (S i)) else None)
    (Nat.leb (length pages) (S i)).

(** The number of [query_more] calls since the last [query]. *)
Definition more_since (h : list sf_call) : nat :=
  fold_left (fun n c =>
      match c with
      | CallQuery _ => 0
      | CallQueryMore _ => S n
      | _ => n
      end) h 0.

(** A service that answers every [query] with the first page of [pages]
    and each [query_more] with the next page, provided the URL is the one
    it handed out; other calls are answered by [base]. *)
Definition pages_provider (pages : list (list sobject))
    (base : list sf_call -> sf_call -> sf_response)
    (h : list sf_call) (c : sf_call) : sf_response :=
  match c with
  | CallQuery _ => RespPage (page_at pages 0)
  | CallQueryMore (Some u) =>
      let i := S (more_since h) in
      if String.eqb u (page_url i) then RespPage (page_at pages i)
      else RespError "INVALID_QUERY_LOCATOR: invalid query locator"
  | CallQueryMore None => RespError "INVALID_QUERY_LOCATOR: invalid query locator"
  | _ => base h c
  end.



(** From now on, [w]'s service behaves as [pages_provider pages base]. *)
Definition serves (pages : list (list sobject))
    (base : list sf_call -> sf_call -> sf_response) (w : world) : Prop :=
  forall h c, provider w (sf_hist w ++ h) c = pages_provider pages base (sf_hist w ++ h) c.

(** [w] after the Salesforce calls [cs]. *)
Definition log_calls (w : world) (cs : list sf_call) : world :=
  mkWorld (provider w) (sf_hist w ++ cs) (sf w) (clock w) (today w)
    (loop_fuel w) (trace w) (statistics w) (files w).

End Paging.

Module Sample.

Definition session : string * string :=
  ("https://elevoniq.my.salesforce.com", "00D5g000004SxYz!AQ4AQ").

(** A world before [login]. *)
Definition world0 (p : list sf_call -> sf_call -> sf_response) : world :=
  mkWorld p [] None 0 "2024-05-01" 1000 [] [] [].

(** A world after a successful [login]. *)
Definition world1 (p : list sf_call -> sf_call -> sf_response) : world :=
  mkWorld p [] (Some session) 0 "2024-05-01" 1000 [] [] [].

Definition invalid_login : string :=
  "INVALID_LOGIN: Invalid username, password, security token; or user locked out.".

(** A service that is down for the first [k] calls. *)
Definition down_for (k : nat) (up : list sf_call -> sf_call -> sf_response)
    (h : list sf_call) (c : sf_call) : sf_response :=
  if Nat.ltb (length h) k then RespError "UNKNOWN_EXCEPTION: service unavailable" else up h c.

Definition no_service (h : list sf_call) (c : sf_call) : sf_response :=
  RespError "UNKNOWN_EXCEPTION: service unavailable".

(** A service that accepts the login and answers every query with one
    empty, complete page. *)
Definition quiet_service (h : list sf_call) (c : sf_call) : sf_response :=
  match c with
  | CallLogin _ _ _ _ => RespSession (snd session) (fst session)
  | _ => RespPage (mkPage [] None true)
  end.

Definition rejects_login (h : list sf_call) (c : sf_call) : sf_response :=
  match c with
  | CallLogin _ _ _ _ => RespError invalid_login
  | _ => quiet_service h c
  end.

Definition account (id name : string) : sobject :=
  [("Id", VStr id); ("Name", VStr name)].

(** Three pages of sizes 2, 2 and 1. *)
Definition pages_221 : list (list sobject) :=
  [[account "001A" "Acme"; account "001B" "Globex"];
   [account "001C" "Initech"; account "001D" "Umbrella"];
   [account "001E" "Hooli"]].

(** The fields of [Account]: two standard fields and a custom one. *)
Definition account_fields : list (string * value) :=
  [("Id", VStr "Account ID"); ("Name", VStr "Account Name"); ("Region__c", VStr "Region")].

(** A service holding [Account] with the fields [account_fields] and the
    records [pages_221]. *)
Definition account_service (h : list sf_call) (c : sf_call) : sf_response :=
  match c with
  | CallQueryAll _ =>
      RespPage (mkPage (map (fun ql => FieldResolution.field_definition (fst ql) (snd ql))
                          account_fields) None true)
  | _ => Paging.pages_provider pages_221 quiet_service h c
  end.

(** As [account_service], but the object [Broken__c] does not exist. *)
Definition broken_service (h : list sf_call) (c : sf_call) : sf_response :=
  match c with
  | CallQueryAll soql =>
      if Str.contains "Broken__c" soql
      then RespError "INVALID_TYPE: sObject type 'Broken__c' is not supported."
      else account_service h c
  | _ => account_service h c
  end.



(** The state a later run of the program starts from: the local files are
    those [w] left, and [stats] are the records that run collected. *)
Definition next_run (w : world) (stats : list Statistics) : world :=
  mkWorld (provider w) [] None (clock w) (today w) (loop_fuel w) [] stats (files w).

End Sample.

Module Effects.

(** Console output and sleeps, as opposed to written data. *)
Definition log_event (ev : event) : bool :=
  match ev with EvPrint _ | EvSleep _ => true | _ => false end.

(** The data a run writes: sheets and CSV exports, in order. *)
Definition outputs (t : list event) : list event := filter (fun ev => negb (log_event ev)) t.

(** [c] only prints and sleeps: it writes no data, appends no statistics
    and touches no file. *)
Definition logs_only {A} (c : M A) : Prop :=
  forall w, exists evs,
    trace (snd (c w)) = trace w ++ evs /\ forallb log_event evs = true /\
    statistics (snd (c w)) = statistics w /\ files (snd (c w)) = files w.

(** The attempt indices of the sleeps in a trace, in order. *)
Definition sleeps (t : list event) : list nat :=
  fold_right (fun ev acc => match ev with EvSleep i => i :: acc | _ => acc end) [] t.

(** The state in which [export_salesforce_object] enters its [try]. *)
Definition export_start (object_name : string) (w : world) : world :=
  snd (DataPipeline.export_prelude object_name w).

(** The data a completed export writes, read off [export_salesforce_object]. *)
Definition materialized (object_name : string) (m : SalesforceClient.field_label_map)
    (records : list sobject) : list event :=
  match records with
  | [] => []
  | _ =>
      [if N.leb 1000000 (N.of_nat (length records))
       then EvCsv (path_join Config.LOCAL_FOLDER (object_name ++ ".csv"))
              (DataPipeline.build_frame m records)
       else EvSheet (Str.replace "_" " " (Str.replace "__c" "" object_name))
              (DataPipeline.build_frame m records)]
  end.

(** The save step of a completed export does not raise: there is no
    record, or the records go to a CSV, or [to_excel] accepts the sheet
    name and the frame. *)
Definition save_succeeds (object_name : string) (m : SalesforceClient.field_label_map)
    (records : list sobject) : bool :=
  match records with
  | [] => true
  | _ =>
      N.leb 1000000 (N.of_nat (length records))
      || Pandas.excel_accepts (DataPipeline.sheet_name object_name)
           (DataPipeline.build_frame m records)
  end.

End Effects.

Module Sequential.
Import DataPipeline.

(** The exports of [objects] run one after the other, in order. *)
Fixpoint run_in_order (objects : list string) : M unit :=
  match objects with
  | [] => ret tt
  | o :: rest => export_salesforce_object o ;; run_in_order rest
  end.

(** A writer class that does implement the asynchronous protocol, to see
    what [run] would do past its [async with]. *)
Definition async_writer : Asyncio.cm_protocol := Asyncio.mkProtocol true true.

End Sequential.

(** Drive states the Google Drive properties are stated on. *)
Module DriveSample.
Import GoogleDrive.

(** The token file [authenticate] writes for [c]. *)
Definition token (c : creds) : option cred_json := Some (mkCredJson (Some c) false).

(** A client-secrets file, as downloaded from the Google Cloud console. *)
Definition client_secrets : option cred_json := Some (mkCredJson None true).

Definition fresh : creds := mkCreds true false true.
Definition stale : creds := mkCreds false true true.

(** Before [authenticate]: no service and no folder yet. *)
Definition before_auth (cred : option cred_json) (refresh : bool) : state :=
  mkState [] 0 true refresh 100 ["Account.xlsx"; "notes.txt"; "Opportunity.csv"] cred false
    None [] [].

(** The [ELEVENIQ] folder and an earlier upload of [Account.xlsx] in it. *)
Definition folder : file := mkFile "file-0" "ELEVENIQ" folder_mime false [] 1.

Definition account_xlsx : file :=
  mkFile "file-1" "Account.xlsx"
    "application/vnd.openxmlformats-officedocument.spreadsheetml.sheet" false ["file-0"] 1.

(** After [authenticate] and [get_or_create_folder] on a Drive holding
    [d]. *)
Definition connected (d : list file) (n : nat) (fid : option string) : state :=
  mkState d n true true 100 ["Account.xlsx"; "notes.txt"; "Opportunity.csv"] (token fresh)
    true fid [] [].

End DriveSample.

(** * Properties *)

(** ** The monad *)

Module MonadFacts.

Lemma bind_ok {A B} (c : M A) (k : A -> M B) w a w' :
  c w = (Ok a, w') -> bind c k w = k a w'.
Proof. intro H. unfold bind. rewrite H. reflexivity. Qed.

Lemma bind_exc {A B} (c : M A) (k : A -> M B) w e w' :
  c w = (Exc e, w') -> bind c k w = (Exc e, w').
Proof. intro H. unfold bind. rewrite H. reflexivity. Qed.

Lemma catch_ok {A} (c : M A) h w a w' :
  c w = (Ok a, w') -> catch c h w = (Ok a, w').
Proof. intro H. unfold catch. rewrite H. reflexivity. Qed.

Lemma catch_exc {A} (c : M A) h w e w' :
  c w = (Exc e, w') -> catch c h w = h e w'.
Proof. intro H. unfold catch. rewrite H. reflexivity. Qed.

Lemma require_sf_ok m w conn : sf w = Some conn -> require_sf m w = (Ok tt, w).
Proof. intro H. unfold require_sf. rewrite H. reflexivity. Qed.


Lemma sf_request_page c w p :
  provider w (sf_hist w) c = RespPage p ->
  sf_request c w = (Ok (RespPage p), Paging.log_calls w [c]).
Proof. intro H. unfold sf_request. rewrite H. reflexivity. Qed.

Lemma sf_request_error c w m :
  provider w (sf_hist w) c = RespError m ->
  sf_request c w = (Exc (SalesforceError m), Paging.log_calls w [c]).
Proof. intro H. unfold sf_request. rewrite H. reflexivity. Qed.

End MonadFacts.

(** ** Python dicts *)

Module DictFacts.
Section DictFacts.
Context {K V : Type} (keqb : K -> K -> bool).
Hypothesis keqb_spec : forall a b, reflect (a = b) (keqb a b).

Lemma get_set (d : Dict.t (K := K) (V := V)) k v k' :
  Dict.get keqb (Dict.set keqb d k v) k' =
  if keqb k' k then Some v else Dict.get keqb d k'.
Proof.
  induction d as [|[k0 v0] d IH]; cbn.
  - destruct (keqb k' k); reflexivity.
  - destruct (keqb_spec k k0) as [<-|Hne]; cbn.
    + destruct (keqb_spec k' k); reflexivity.
    + rewrite IH. destruct (keqb_spec k' k0) as [->|]; [|reflexivity].
      destruct (keqb_spec k0 k); [congruence|reflexivity].
Qed.

Lemma in_keys_get (d : Dict.t (K := K) (V := V)) k :
  In k (Dict.keys d) <-> Dict.get keqb d k <> None.
Proof.
  induction d as [|[k0 v0] d IH]; cbn.
  - tauto.
  - destruct (keqb_spec k k0) as [->|Hne].
    + split; [discriminate | auto].
    + rewrite <- IH. split; [intros [->|H]; [congruence|exact H] | auto].
Qed.

Lemma get_in (d : Dict.t (K := K) (V := V)) k v :
  Dict.get keqb d k = Some v -> In (k, v) d.
Proof.
  induction d as [|[k0 v0] d IH]; cbn; [discriminate|].
  destruct (keqb_spec k k0) as [->|]; [injection 1 as ->; auto | auto].
Qed.

Lemma get_nodup_in (d : Dict.t (K := K) (V := V)) k v :
  NoDup (Dict.keys d) -> In (k, v) d -> Dict.get keqb d k = Some v.
Proof.
  induction d as [|[k0 v0] d IH]; cbn; [contradiction|].
  intros Hnd [Heq|Hin]; inversion Hnd as [|? ? Hnot Hnd']; subst.
  - injection Heq as -> ->. destruct (keqb_spec k k); congruence.
  - destruct (keqb_spec k k0) as [->|]; [|auto].
    exfalso. apply Hnot. change k0 with (fst (k0, v)). apply in_map, Hin.
Qed.

Lemma find_app' {A} (p : A -> bool) l1 l2 :
  find p (l1 ++ l2) = match find p l1 with Some x => Some x | None => find p l2 end.
Proof.
  induction l1 as [|x l1 IH]; cbn; [reflexivity|].
  destruct (p x); [reflexivity|exact IH].
Qed.

Lemma fold_set_get {A} (f : A -> K) (g : A -> V) xs acc k :
  Dict.get keqb (fold_left (fun acc x => Dict.set keqb acc (f x) (g x)) xs acc) k =
  match find (fun x => keqb (f x) k) (rev xs) with
  | Some x => Some (g x)
  | None => Dict.get keqb acc k
  end.
Proof.
  revert acc. induction xs as [|x xs IH]; intro acc; [reflexivity|].
  cbn [fold_left rev]. rewrite IH, find_app'. cbn [find].
  destruct (find (fun y => keqb (f y) k) (rev xs)); [reflexivity|].
  rewrite get_set. destruct (keqb_spec k (f x)), (keqb_spec (f x) k); congruence.
Qed.

Lemma nodup_map_inj {A B} (f : A -> B) (l : list A) x y :
  NoDup (map f l) -> In x l -> In y l -> f x = f y -> x = y.
Proof.
  induction l as [|z l IH]; cbn; [contradiction|].
  intros Hnd Hx Hy Hf. inversion Hnd as [|? ? Hnot Hnd']; subst.
  destruct Hx as [<-|Hx], Hy as [<-|Hy]; auto.
  - exfalso. apply Hnot. rewrite Hf. apply in_map, Hy.
  - exfalso. apply Hnot. rewrite <- Hf. apply in_map, Hx.
Qed.

(** With distinct keys, the last set of a key is its only one. *)
Lemma fold_set_get_in {A} (f : A -> K) (g : A -> V) xs acc x :
  NoDup (map f xs) -> In x xs ->
  Dict.get keqb (fold_left (fun acc x => Dict.set keqb acc (f x) (g x)) xs acc) (f x)
  = Some (g x).
Proof.
  intros Hnd Hin. rewrite fold_set_get.
  destruct (find (fun y => keqb (f y) (f x)) (rev xs)) as [y|] eqn:E.
  - apply find_some in E as [Hy Hfy]. rewrite <- in_rev in Hy.
    destruct (keqb_spec (f y) (f x)) as [Heq|]; [|discriminate].
    rewrite (nodup_map_inj f xs y x Hnd Hy Hin Heq). reflexivity.
  - exfalso. pose proof (find_none _ _ E x) as Hc. rewrite <- in_rev in Hc.
    specialize (Hc Hin). destruct (keqb_spec (f x) (f x)); congruence.
Qed.

Lemma keys_set_nodup (d : Dict.t (K := K) (V := V)) k v :
  NoDup (Dict.keys d) -> NoDup (Dict.keys (Dict.set keqb d k v)).
Proof.
  induction d as [|[k0 v0] d IH]; cbn; intro Hnd.
  - repeat constructor. intros [].
  - inversion Hnd as [|? ? Hnot Hnd']; subst.
    destruct (keqb_spec k k0) as [->|Hne]; cbn; constructor; auto.
    intro Hin. apply Hnot. apply in_keys_get in Hin. apply in_keys_get.
    rewrite get_set in Hin. destruct (keqb_spec k0 k); congruence.
Qed.

Lemma fold_set_nodup {A} (f : A -> K) (g : A -> V) xs acc :
  NoDup (Dict.keys acc) ->
  NoDup (Dict.keys (fold_left (fun acc x => Dict.set keqb acc (f x) (g x)) xs acc)).
Proof.
  revert acc. induction xs as [|x xs IH]; intros acc H; [exact H|].
  apply IH, keys_set_nodup, H.
Qed.

End DictFacts.
End DictFacts.

Lemma value_eqb_spec a b : reflect (a = b) (value_eqb a b).
Proof.
  destruct a as [x|x|x|], b as [y|y|y|]; cbn; try (constructor; discriminate).
  - destruct (String.eqb_spec x y); constructor; congruence.
  - destruct (Nat.eqb_spec x y); constructor; congruence.
  - destruct x, y; constructor; congruence.
  - constructor. reflexivity.
Qed.

(** ** Field resolution *)

Module FieldResolutionFacts.
Import SalesforceClient FieldResolution.

Lemma collect_fields_defs defs acc w :
  collect_fields (map (fun ql => field_definition (fst ql) (snd ql)) defs) acc w
  = (Ok (fold_left resolve_step defs acc), w).
Proof.
  revert acc. induction defs as [|[q l] defs IH]; intro acc; [reflexivity|].
  cbn -[keep_field]. unfold resolve_step at 2; cbn -[keep_field].
  destruct (keep_field q); apply IH.
Qed.

Lemma resolve_get defs acc q :
  NoDup (map fst defs) ->
  Dict.get String.eqb (fold_left resolve_step defs acc) q =
  match Dict.get String.eqb defs q with
  | Some l => if keep_field q then Some l else Dict.get String.eqb acc q
  | None => Dict.get String.eqb acc q
  end.
Proof.
  revert acc. induction defs as [|[q0 l0] defs IH]; intros acc Hnd; [reflexivity|].
  inversion Hnd as [|? ? Hnot Hnd']; subst. cbn [fold_left Dict.get].
  rewrite IH by exact Hnd'. unfold resolve_step; cbn [fst snd].
  destruct (String.eqb_spec q q0) as [->|Hne].
  - assert (Hnone : Dict.get String.eqb defs q0 = None).
    { destruct (Dict.get String.eqb defs q0) as [l|] eqn:E; [|reflexivity].
      exfalso. apply Hnot. apply (DictFacts.in_keys_get String.eqb String.eqb_spec).
      congruence. }
    rewrite Hnone. destruct (keep_field q0); [|reflexivity].
    rewrite (DictFacts.get_set String.eqb String.eqb_spec), String.eqb_refl.
    reflexivity.
  - destruct (keep_field q0);
      [rewrite (DictFacts.get_set String.eqb String.eqb_spec);
       apply String.eqb_neq in Hne; rewrite Hne|];
      reflexivity.
Qed.

End FieldResolutionFacts.

(** C6: field resolution keeps an identifier exactly when it is in
    [STANDARD_FIELDS] or contains ["__c"], and maps each kept identifier to
    its label; for ["Id"; "Foo__c"; "RandomField"] it keeps ["Id"; "Foo__c"]. *)
Theorem get_field_labels_filter (object_name : string) (defs : list (string * value))
    (p : page) (w : world) (conn : string * string) :
  sf w = Some conn ->
  provider w (sf_hist w) (CallQueryAll (SalesforceClient.field_query object_name)) = RespPage p ->
  page_records p = map (fun ql => FieldResolution.field_definition (fst ql) (snd ql)) defs ->
  NoDup (map fst defs) ->
  exists m w',
    SalesforceClient.get_field_labels object_name w = (Ok m, w') /\
    (forall q, Dict.get String.eqb m q =
               if SalesforceClient.keep_field q then Dict.get String.eqb defs q else None) /\
    (forall q, In q (Dict.keys m) <->
               In q (map fst defs) /\ SalesforceClient.keep_field q = true) /\
    Dict.keys (fold_left FieldResolution.resolve_step
                 [("Id", VStr "Record ID"); ("Foo__c", VStr "Foo");
                  ("RandomField", VStr "Random")] []) = ["Id"; "Foo__c"].
Proof.
  intros Hsf Hprov Hrec Hnd.
  unfold SalesforceClient.get_field_labels, bind, require_sf, sf_request.
  rewrite Hsf, Hprov. cbn [expect_page ret]. rewrite Hrec.
  rewrite FieldResolutionFacts.collect_fields_defs.
  eexists _, _. split; [reflexivity|].
  assert (Hget : forall q, Dict.get String.eqb
                   (fold_left FieldResolution.resolve_step defs []) q =
                 if SalesforceClient.keep_field q then Dict.get String.eqb defs q else None).
  { intro q. rewrite FieldResolutionFacts.resolve_get by exact Hnd.
    destruct (Dict.get String.eqb defs q); destruct (SalesforceClient.keep_field q); reflexivity. }
  split; [exact Hget|]. split; [|vm_compute; reflexivity].
  intro q. rewrite (DictFacts.in_keys_get String.eqb String.eqb_spec), Hget.
  change (map fst defs) with (Dict.keys defs).
  rewrite (DictFacts.in_keys_get String.eqb String.eqb_spec).
  destruct (SalesforceClient.keep_field q); intuition congruence.
Qed.

(** ** Pagination *)

Module PagingFacts.
Import Paging SalesforceClient.

Lemma more_since_app h c :
  more_since (h ++ [c]) =
  match c with CallQuery _ => 0 | CallQueryMore _ => S (more_since h) | _ => more_since h end.
Proof. unfold more_since. rewrite fold_left_app. reflexivity. Qed.

Lemma log_calls_app w cs1 cs2 :
  log_calls (log_calls w cs1) cs2 = log_calls w (cs1 ++ cs2).
Proof. unfold log_calls; cbn. rewrite app_assoc. reflexivity. Qed.

Lemma log_calls_nil w : log_calls w [] = w.
Proof. destruct w; unfold log_calls; cbn. rewrite app_nil_r. reflexivity. Qed.

Lemma skipn_nth_cons {A} (l : list A) i d :
  i < length l -> skipn i l = nth i l d :: skipn (S i) l.
Proof.
  revert i. induction l as [|x l IH]; intros [|i] Hi; cbn in *; try lia; auto.
  apply IH. lia.
Qed.

Lemma page_at_done pages i : done (page_at pages i) = Nat.leb (length pages) (S i).
Proof. reflexivity. Qed.

Lemma page_at_next pages i :
  S i < length pages -> nextRecordsUrl (page_at pages i) = Some (page_url (S i)).
Proof. intro H. unfold page_at; cbn [nextRecordsUrl]. apply Nat.ltb_lt in H. rewrite H. reflexivity. Qed.

(** From page [i] on, the [while] loop fetches the remaining [j] pages in
    order and appends them. *)
Lemma paginate_pages pages base conn : forall j i fuel w all_records,
  i + S j = length pages ->
  j <= fuel ->
  serves pages base w ->
  sf w = Some conn ->
  more_since (sf_hist w) = i ->
  paginate fuel (done (page_at pages i)) all_records (nextRecordsUrl (page_at pages i)) w
  = (Ok (all_records ++ concat (skipn (S i) pages)),
     log_calls w (map (fun k => CallQueryMore (Some (page_url k))) (seq (S i) j))).
Proof.
  induction j as [|j IH]; intros i fuel w all_records Hlen Hfuel Hprov Hsf Hmore.
  - rewrite page_at_done. replace (Nat.leb (length pages) (S i)) with true
      by (symmetry; apply Nat.leb_le; lia).
    rewrite skipn_all2 by lia. cbn [concat seq map]. rewrite app_nil_r, log_calls_nil.
    destruct fuel; reflexivity.
  - destruct fuel as [|fuel]; [lia|].
    rewrite page_at_done, page_at_next by lia.
    replace (Nat.leb (length pages) (S i)) with false
      by (symmetry; apply Nat.leb_gt; lia).
    cbn [paginate].
    rewrite (MonadFacts.bind_ok _ _ _ _ _ (MonadFacts.require_sf_ok _ _ _ Hsf)).
    rewrite (MonadFacts.bind_ok _ _ _ (RespPage (page_at pages (S i)))
               (log_calls w [CallQueryMore (Some (page_url (S i)))])).
    2:{ apply MonadFacts.sf_request_page.
        rewrite <- (app_nil_r (sf_hist w)), Hprov, app_nil_r. cbn [pages_provider].
        rewrite Hmore, String.eqb_refl. reflexivity. }
    cbn [expect_page]. unfold ret at 1. cbn [bind].
    rewrite (IH (S i)).
    + rewrite log_calls_app, <- app_assoc. cbn [page_records page_at].
      rewrite (skipn_nth_cons pages (S i) []) by lia. reflexivity.
    + lia.
    + lia.
    + intros h c. cbn [log_calls provider sf_hist]. rewrite <- app_assoc. apply Hprov.
    + exact Hsf.
    + cbn [log_calls sf_hist]. rewrite more_since_app, Hmore. reflexivity.
Qed.

(** One attempt of [fetch_data] against a service serving [pages]. *)
Lemma fetch_body_pages soql pages base w conn :
  pages <> [] ->
  serves pages base w ->
  sf w = Some conn ->
  length pages - 1 <= loop_fuel w ->
  fetch_body soql w =
  (Ok (concat pages),
   log_calls w (CallQuery soql
                :: map (fun k => CallQueryMore (Some (page_url k))) (seq 1 (length pages - 1)))).
Proof.
  intros Hne Hprov Hsf Hfuel.
  destruct pages as [|p0 rest] eqn:Ep; [congruence|]. rewrite <- Ep in *.
  assert (Hlen : length pages = S (length rest)) by (rewrite Ep; reflexivity).
  unfold fetch_body.
  rewrite (MonadFacts.bind_ok _ _ _ _ _ (MonadFacts.require_sf_ok _ w conn Hsf)).
  rewrite (MonadFacts.bind_ok _ _ _ _ (log_calls w [CallQuery soql])
             (MonadFacts.sf_request_page (CallQuery soql) w (page_at pages 0)
                ltac:(rewrite <- (app_nil_r (sf_hist w)), Hprov; reflexivity))).
  cbn [expect_page]. unfold ret at 1. cbn [bind].
  rewrite (MonadFacts.bind_ok _ _ _ (loop_fuel w) (log_calls w [CallQuery soql]))
    by reflexivity.
  rewrite (paginate_pages pages base conn (length pages - 1) 0); try lia.
  - rewrite log_calls_app. f_equal. rewrite Ep. reflexivity.
  - intros h c. cbn [log_calls provider sf_hist]. rewrite <- app_assoc. apply Hprov.
  - exact Hsf.
  - cbn [log_calls sf_hist]. rewrite more_since_app. reflexivity.
Qed.

End PagingFacts.

(** C5: against a service that serves a page sequence, [fetch_data]
    returns the concatenation of the pages' record lists in page order (no
    reordering, deduplication, loss or duplication), after one [query] and
    one [query_more] per further page. *)
Theorem fetch_data_concat_pages (object_name : string) (fields : list string)
    (pages : list (list sobject)) base (w : world) conn :
  pages <> [] ->
  provider w = Paging.pages_provider pages base ->
  sf w = Some conn ->
  length pages - 1 <= loop_fuel w ->
  exists w',
    SalesforceClient.fetch_data object_name fields w = (Ok (concat pages), w') /\
    sf_hist w' = sf_hist w ++
      CallQuery (SalesforceClient.select_query object_name fields)
      :: map (fun k => CallQueryMore (Some (Paging.page_url k))) (seq 1 (length pages - 1)).
Proof.
  intros Hne Hprov Hsf Hfuel.
  set (soql := SalesforceClient.select_query object_name fields).
  unfold SalesforceClient.fetch_data. fold soql.
  rewrite (MonadFacts.bind_ok (print ("Executing query: " ++ soql)) _ w tt _ eq_refl).
  unfold SalesforceClient.retry_range. cbn [SalesforceClient.retry_loop].
  eexists. split.
  - apply MonadFacts.catch_ok. apply (PagingFacts.fetch_body_pages _ _ base _ conn);
      cbn [provider sf loop_fuel sf_hist]; try assumption.
    intros h c. rewrite Hprov. reflexivity.
  - reflexivity.
Qed.

(** ** The retry loops of [login] and [fetch_data] *)

Module RetryFacts.
Import SalesforceClient.


(** A failed attempt: report, sleep, and go on with the next index; the
    Salesforce side of the state is untouched. *)
Lemma retry_loop_step_exc {A} label retries i n (body : M A) exh w e w1 :
  body w = (Exc e, w1) ->
  exists w2,
    retry_loop label retries i (S n) body exh w = retry_loop label retries (S i) n body exh w2 /\
    provider w2 = provider w1 /\ sf_hist w2 = sf_hist w1 /\ sf w2 = sf w1 /\
    loop_fuel w2 = loop_fuel w1 /\
    trace w2 = trace w1 ++
      [EvPrint (label ++ " attempt " ++ Str.of_nat (S i) ++ "/" ++ Str.of_nat retries
                ++ " failed: " ++ exn_msg e ++ ". Retrying..."); EvSleep i].
Proof.
  intro H. cbn [retry_loop]. rewrite (MonadFacts.catch_exc _ _ _ _ _ H).
  eexists. split; [reflexivity|]. cbn. rewrite <- app_assoc. repeat split.
Qed.

Lemma retry_loop_zero {A} label retries i (body : M A) exh w :
  retry_loop label retries i 0 body exh w = (Exc exh, w).
Proof. reflexivity. Qed.


(** [login] with a service that refuses every login. *)
Lemma login_loop_fail exh : forall n i w,
  (forall h, exists m, provider w h login_call = RespError m) ->
  exists w',
    retry_loop "Login" 5 i n login_body exh w = (Exc exh, w') /\
    sf_hist w' = sf_hist w ++ repeat login_call n.
Proof.
  induction n as [|n IH]; intros i w Hfail.
  - exists w. rewrite app_nil_r. split; reflexivity.
  - destruct (Hfail (sf_hist w)) as [m Hm].
    destruct (retry_loop_step_exc "Login" 5 i n login_body exh w (SalesforceError m)
                (Paging.log_calls w [login_call])) as (w2 & Heq & Hp & Hh & _).
    { unfold login_body. apply MonadFacts.bind_exc, MonadFacts.sf_request_error, Hm. }
    rewrite Heq. destruct (IH (S i) w2) as (w' & Hrun & Hhist).
    + rewrite Hp. exact Hfail.
    + exists w'. split; [exact Hrun|]. rewrite Hhist, Hh. cbn. rewrite <- app_assoc. reflexivity.
Qed.





End RetryFacts.

(** ** The attempts of [login] and [fetch_data] *)

Module AttemptFacts.
Import Effects SalesforceClient.










End AttemptFacts.






Lemma fetch_data_concat_pages_witness :
  let pages := Sample.pages_221 in
  let w := Sample.world1 (Paging.pages_provider pages Sample.quiet_service) in
  (pages <> [] /\ length pages - 1 <= loop_fuel w /\ length (concat pages) = 5) /\
  exists w',
    SalesforceClient.fetch_data "Account" ["Id"; "Name"] w = (Ok (concat pages), w') /\
    sf_hist w' = sf_hist w ++
      CallQuery (SalesforceClient.select_query "Account" ["Id"; "Name"])
      :: map (fun k => CallQueryMore (Some (Paging.page_url k))) (seq 1 (length pages - 1)).
Proof.
  intros pages w. split; [split; [discriminate|split; [cbn; lia|reflexivity]]|].
  apply (fetch_data_concat_pages "Account" ["Id"; "Name"] pages Sample.quiet_service w
           Sample.session); cbn; try reflexivity; try discriminate; lia.
Defined.

Lemma get_field_labels_filter_witness :
  let defs := [("Id", VStr "Record ID"); ("Foo__c", VStr "Foo"); ("RandomField", VStr "Random")] in
  let p := mkPage (map (fun ql => FieldResolution.field_definition (fst ql) (snd ql)) defs) None true in
  let w := Sample.world1 (fun _ _ => RespPage p) in
  NoDup (map fst defs) /\
  exists m w',
    SalesforceClient.get_field_labels "Account" w = (Ok m, w') /\
    (forall q, Dict.get String.eqb m q =
               if SalesforceClient.keep_field q then Dict.get String.eqb defs q else None) /\
    (forall q, In q (Dict.keys m) <->
               In q (map fst defs) /\ SalesforceClient.keep_field q = true) /\
    Dict.keys (fold_left FieldResolution.resolve_step
                 [("Id", VStr "Record ID"); ("Foo__c", VStr "Foo");
                  ("RandomField", VStr "Random")] []) = ["Id"; "Foo__c"].
Proof.
  intros defs p w. split.
  - repeat constructor; cbn; intuition discriminate.
  - apply (get_field_labels_filter "Account" defs p w Sample.session); try reflexivity.
    repeat constructor; cbn; intuition discriminate.
Defined.

(** ** The row transform *)

Module RowFacts.
Import DataPipeline.

Lemma invert_in (m : SalesforceClient.field_label_map) api label :
  NoDup (map snd m) -> In (api, label) m -> In (label, api) (invert m).
Proof.
  intros Hnd Hin. unfold invert.
  apply (DictFacts.get_in value_eqb value_eqb_spec).
  exact (DictFacts.fold_set_get_in value_eqb value_eqb_spec snd fst m [] (api, label) Hnd Hin).
Qed.

Lemma invert_nodup (m : SalesforceClient.field_label_map) :
  NoDup (map fst (invert m)).
Proof.
  unfold invert.
  apply (DictFacts.fold_set_nodup value_eqb value_eqb_spec snd fst m []). constructor.
Qed.

Lemma build_row_get (m : SalesforceClient.field_label_map) record api label :
  NoDup (map snd m) -> In (api, label) m ->
  Dict.get value_eqb (build_row (invert m) record) label =
  Some (Dict.get_default String.eqb record api (VStr "")).
Proof.
  intros Hnd Hin. unfold build_row.
  exact (DictFacts.fold_set_get_in value_eqb value_eqb_spec fst
           (fun la => Dict.get_default String.eqb record (snd la) (VStr ""))
           (invert m) [] (label, api) (invert_nodup m) (invert_in m api label Hnd Hin)).
Qed.

End RowFacts.

(** C7: with distinct field labels, the row transform gives one row per
    fetched record, in order, and each row maps every resolved field's
    label to the record's value under the field's API name, or [""] when
    the record lacks it. *)
Theorem build_frame_rows (m : SalesforceClient.field_label_map) (records : list sobject) :
  NoDup (map snd m) ->
  length (DataPipeline.build_frame m records) = length records /\
  forall i record, nth_error records i = Some record ->
    nth_error (DataPipeline.build_frame m records) i =
      Some (DataPipeline.build_row (DataPipeline.invert m) record) /\
    forall api label, In (api, label) m ->
      Dict.get value_eqb (DataPipeline.build_row (DataPipeline.invert m) record) label =
      Some (Dict.get_default String.eqb record api (VStr "")).
Proof.
  intro Hnd. split.
  - apply length_map.
  - intros i record Hi. split.
    + unfold DataPipeline.build_frame. rewrite nth_error_map, Hi. reflexivity.
    + intros api label Hin. apply RowFacts.build_row_get; assumption.
Qed.

Lemma build_frame_rows_witness :
  let m := [("Id", VStr "Account ID"); ("Name", VStr "Account Name");
            ("Region__c", VStr "Region")] in
  let records := [Sample.account "001A" "Acme"; Sample.account "001B" "Globex"] in
  NoDup (map snd m) /\
  length (DataPipeline.build_frame m records) = length records /\
  forall i record, nth_error records i = Some record ->
    nth_error (DataPipeline.build_frame m records) i =
      Some (DataPipeline.build_row (DataPipeline.invert m) record) /\
    forall api label, In (api, label) m ->
      Dict.get value_eqb (DataPipeline.build_row (DataPipeline.invert m) record) label =
      Some (Dict.get_default String.eqb record api (VStr "")).
Proof.
  intros m records.
  assert (Hnd : NoDup (map snd m)) by (repeat constructor; cbn; intuition discriminate).
  split; [exact Hnd|]. exact (build_frame_rows m records Hnd).
Defined.

(** ** Which steps write data *)

Module EffectFacts.
Import Effects.

Ltac logs_only_direct :=
  intro w; exists []; rewrite app_nil_r; repeat split.

Lemma ret_logs_only {A} (a : A) : logs_only (ret a).
Proof. logs_only_direct. Qed.

Lemma raise_logs_only {A} e : logs_only (A := A) (raise e).
Proof. logs_only_direct. Qed.

Lemma stuck_logs_only {A} : logs_only (A := A) stuck.
Proof. logs_only_direct. Qed.

Lemma print_logs_only msg : logs_only (print msg).
Proof. intro w. exists [EvPrint msg]. repeat split. Qed.

Lemma sleep_logs_only i : logs_only (sleep i).
Proof. intro w. exists [EvSleep i]. repeat split. Qed.

Lemma now_logs_only : logs_only now.
Proof. logs_only_direct. Qed.

Lemma get_today_logs_only : logs_only get_today.
Proof. logs_only_direct. Qed.

Lemma get_loop_fuel_logs_only : logs_only get_loop_fuel.
Proof. logs_only_direct. Qed.

Lemma sf_request_logs_only c : logs_only (sf_request c).
Proof. intro w. exists []. unfold sf_request. destruct (provider w (sf_hist w) c);
  cbn; rewrite app_nil_r; repeat split. Qed.

Lemma require_sf_logs_only m : logs_only (require_sf m).
Proof. intro w. exists []. unfold require_sf. destruct (sf w); cbn; rewrite app_nil_r; repeat split. Qed.

Lemma set_sf_logs_only c : logs_only (set_sf c).
Proof. logs_only_direct. Qed.

Lemma expect_page_logs_only r : logs_only (expect_page r).
Proof. destruct r; cbn; auto using ret_logs_only, raise_logs_only. Qed.

Lemma bind_logs_only {A B} (c : M A) (k : A -> M B) :
  logs_only c -> (forall a, logs_only (k a)) -> logs_only (bind c k).
Proof.
  intros Hc Hk w. destruct (Hc w) as (evs1 & Ht1 & Hf1 & Hs1 & Hfi1).
  unfold bind. destruct (c w) as [[a|e|] w1]; cbn [snd] in *.
  - destruct (Hk a w1) as (evs2 & Ht2 & Hf2 & Hs2 & Hfi2).
    exists (evs1 ++ evs2). rewrite Ht2, Ht1, app_assoc, forallb_app, Hf1, Hf2.
    repeat split; congruence.
  - exists evs1. auto.
  - exists evs1. auto.
Qed.

Lemma catch_logs_only {A} (c : M A) h :
  logs_only c -> (forall e, logs_only (h e)) -> logs_only (catch c h).
Proof.
  intros Hc Hh w. destruct (Hc w) as (evs1 & Ht1 & Hf1 & Hs1 & Hfi1).
  unfold catch. destruct (c w) as [[a|e|] w1]; cbn [snd] in *.
  - exists evs1. auto.
  - destruct (Hh e w1) as (evs2 & Ht2 & Hf2 & Hs2 & Hfi2).
    exists (evs1 ++ evs2). rewrite Ht2, Ht1, app_assoc, forallb_app, Hf1, Hf2.
    repeat split; congruence.
  - exists evs1. auto.
Qed.

Create HintDb effects.
#[local] Hint Resolve ret_logs_only raise_logs_only stuck_logs_only print_logs_only
  sleep_logs_only now_logs_only get_today_logs_only get_loop_fuel_logs_only
  sf_request_logs_only require_sf_logs_only set_sf_logs_only expect_page_logs_only
  bind_logs_only catch_logs_only : effects.

Lemma retry_loop_logs_only {A} label retries exh (body : M A) :
  logs_only body -> forall n i, logs_only (SalesforceClient.retry_loop label retries i n body exh).
Proof. intros Hb n. induction n; intro i; cbn; auto with effects. Qed.

Lemma paginate_logs_only fuel : forall d acc next,
  logs_only (SalesforceClient.paginate fuel d acc next).
Proof.
  induction fuel as [|fuel IH]; intros d acc next; cbn; destruct d; auto with effects.
Qed.

Lemma getitem_logs_only d k : logs_only (SalesforceClient.getitem d k).
Proof. unfold SalesforceClient.getitem. destruct (Dict.get String.eqb d k); auto with effects. Qed.

Lemma collect_fields_logs_only fs : forall acc, logs_only (SalesforceClient.collect_fields fs acc).
Proof.
  induction fs as [|f fs IH]; intro acc; cbn; [auto with effects|].
  apply bind_logs_only; [apply getitem_logs_only|]. intros [q| | |]; auto with effects.
  destruct (SalesforceClient.keep_field q); auto using getitem_logs_only with effects.
Qed.

Lemma get_field_labels_logs_only o : logs_only (SalesforceClient.get_field_labels o).
Proof.
  unfold SalesforceClient.get_field_labels. auto using collect_fields_logs_only with effects.
Qed.

Lemma login_logs_only : logs_only SalesforceClient.login.
Proof.
  unfold SalesforceClient.login, SalesforceClient.retry_range.
  apply retry_loop_logs_only. unfold SalesforceClient.login_body.
  apply bind_logs_only; [auto with effects|]. intros []; auto with effects.
Qed.

Lemma fetch_data_logs_only o fs : logs_only (SalesforceClient.fetch_data o fs).
Proof.
  unfold SalesforceClient.fetch_data, SalesforceClient.retry_range, SalesforceClient.fetch_body.
  apply bind_logs_only; [auto with effects|]. intros _.
  apply retry_loop_logs_only. auto using paginate_logs_only with effects.
Qed.

End EffectFacts.

(** ** One object's export *)

Module ExportFacts.
Import Effects DataPipeline.

Lemma outputs_app t1 t2 : outputs (t1 ++ t2) = outputs t1 ++ outputs t2.
Proof. apply filter_app. Qed.

Lemma outputs_logs t : forallb log_event t = true -> outputs t = [].
Proof.
  induction t as [|ev t IH]; cbn; [reflexivity|].
  intro H. apply andb_prop in H as [H1 H2]. rewrite H1. cbn. apply IH, H2.
Qed.

Lemma logs_only_run {A} (c : M A) w r w' :
  logs_only c -> c w = (r, w') ->
  outputs (trace w') = outputs (trace w) /\ statistics w' = statistics w /\ files w' = files w.
Proof.
  intros Hc Hrun. destruct (Hc w) as (evs & Ht & Hf & Hs & Hfi).
  rewrite Hrun in Ht, Hs, Hfi. cbn [snd] in *.
  rewrite Ht, outputs_app, (outputs_logs evs Hf), app_nil_r. auto.
Qed.

Lemma export_prelude_run o w :
  export_prelude o w = (Ok (clock w), export_start o w).
Proof. reflexivity. Qed.

Lemma export_start_outputs o w :
  outputs (trace (export_start o w)) = outputs (trace w) /\
  statistics (export_start o w) = statistics w /\ files (export_start o w) = files w.
Proof. cbn. rewrite !outputs_app. cbn. rewrite !app_nil_r. auto. Qed.

(** [to_excel] on a sheet name and frame it accepts writes the sheet. *)
Lemma to_excel_accepted s df w :
  Pandas.excel_accepts s df = true -> Pandas.to_excel s df w = emit (EvSheet s df) w.
Proof.
  unfold Pandas.excel_accepts, Pandas.to_excel. cbv zeta.
  destruct (N.ltb 1048576 (N.of_nat (length df))
            || N.ltb 16384 (N.of_nat (length (Pandas.frame_columns df)))); [discriminate|].
  destruct (Pandas.title_error s); [discriminate|].
  destruct (Pandas.first_refused (Pandas.excel_cells df)); [discriminate|].
  reflexivity.
Qed.

(** Otherwise it raises, having at most created one sheet. *)
Lemma to_excel_refused s df w :
  Pandas.excel_accepts s df = false ->
  exists e evs,
    fst (Pandas.to_excel s df w) = Exc e /\
    trace (snd (Pandas.to_excel s df w)) = trace w ++ evs /\
    (evs = [] \/ exists t, evs = [EvSheetPartial t]) /\
    statistics (snd (Pandas.to_excel s df w)) = statistics w /\
    files (snd (Pandas.to_excel s df w)) = files w.
Proof.
  unfold Pandas.excel_accepts, Pandas.to_excel. cbv zeta.
  destruct (N.ltb 1048576 (N.of_nat (length df))
            || N.ltb 16384 (N.of_nat (length (Pandas.frame_columns df)))).
  - intros _. do 2 eexists. rewrite app_nil_r. split; [reflexivity|]. split; [reflexivity|].
    split; [left; reflexivity|]. split; reflexivity.
  - destruct (Pandas.title_error s).
    + intros _. do 2 eexists. split; [reflexivity|]. split; [reflexivity|].
      split; [right; eexists; reflexivity|]. split; reflexivity.
    + destruct (Pandas.first_refused (Pandas.excel_cells df)); [|discriminate].
      intros _. do 2 eexists. split; [reflexivity|]. split; [reflexivity|].
      split; [right; eexists; reflexivity|]. split; reflexivity.
Qed.

(** The save step of an export whose write succeeds. *)
Lemma save_records_ok o m records w :
  save_succeeds o m records = true ->
  exists w',
    save_records o m records w = (Ok tt, w') /\
    outputs (trace w') = outputs (trace w) ++ materialized o m records /\
    statistics w' = statistics w /\ files w' = files w /\
    clock w' = clock w /\ today w' = today w.
Proof.
  destruct records as [|r rs]; intro Hs.
  - exists w. rewrite app_nil_r. repeat split.
  - cbn [save_succeeds] in Hs. cbn [save_records materialized]. cbv zeta.
    destruct (N.leb 1000000 (N.of_nat (length (r :: rs)))).
    + eexists. split; [reflexivity|]. cbn. rewrite !outputs_app. cbn.
      rewrite app_nil_r. repeat split.
    + cbn [orb] in Hs. unfold bind. rewrite (to_excel_accepted _ _ w Hs).
      eexists. split; [reflexivity|]. cbn. rewrite !outputs_app. cbn.
      rewrite app_nil_r. repeat split.
Qed.

(** The save step of an export whose sheet write raises. *)
Lemma save_records_fails o m records w :
  save_succeeds o m records = false ->
  exists e w' evs,
    save_records o m records w = (Exc e, w') /\
    trace w' = trace w ++ evs /\ (evs = [] \/ exists t, evs = [EvSheetPartial t]) /\
    statistics w' = statistics w /\ files w' = files w.
Proof.
  destruct records as [|r rs]; intro Hs; [discriminate|].
  cbn [save_succeeds] in Hs. cbn [save_records]. cbv zeta.
  destruct (N.leb 1000000 (N.of_nat (length (r :: rs)))); [discriminate|].
  cbn [orb] in Hs.
  destruct (to_excel_refused (DataPipeline.sheet_name o) (DataPipeline.build_frame m (r :: rs)) w Hs)
    as (e & evs & He & Ht & Hevs & Hst & Hf).
  exists e, (snd (Pandas.to_excel (DataPipeline.sheet_name o) (DataPipeline.build_frame m (r :: rs)) w)), evs.
  split; [|auto].
  apply MonadFacts.bind_exc. rewrite <- He. apply surjective_pairing.
Qed.

(** A completed export whose write succeeds writes [materialized] and
    appends one statistics record; its clock readings are [clock w] and
    [clock w2]. *)
Lemma export_ok o w m records w1 w2 :
  SalesforceClient.get_field_labels o (export_start o w) = (Ok m, w1) ->
  SalesforceClient.fetch_data o (Dict.keys m) w1 = (Ok records, w2) ->
  save_succeeds o m records = true ->
  exists w3,
    export_salesforce_object o w = (Ok tt, w3) /\
    outputs (trace w3) = outputs (trace w) ++ materialized o m records /\
    statistics w3 = statistics w ++
      [mkStatistics o (clock w) (clock w2) (clock w2 - clock w) (today w2)] /\
    files w3 = files w.
Proof.
  intros Hfl Hfd Hsave.
  destruct (export_start_outputs o w) as (H0t & H0s & H0f).
  destruct (logs_only_run _ _ _ _ (EffectFacts.get_field_labels_logs_only o) Hfl) as (H1t & H1s & H1f).
  destruct (logs_only_run _ _ _ _ (EffectFacts.fetch_data_logs_only o (Dict.keys m)) Hfd)
    as (H2t & H2s & H2f).
  destruct (save_records_ok o m records w2 Hsave) as (w' & Hsr & H3t & H3s & H3f & H3c & H3d).
  unfold export_salesforce_object.
  rewrite (MonadFacts.bind_ok _ _ _ _ _ (export_prelude_run o w)).
  unfold catch, export_body.
  rewrite (MonadFacts.bind_ok _ _ _ _ _ Hfl), (MonadFacts.bind_ok _ _ _ _ _ Hfd).
  rewrite (MonadFacts.bind_ok _ _ _ _ _ Hsr).
  eexists. split; [reflexivity|]. cbn. rewrite !outputs_app. cbn. rewrite !app_nil_r.
  rewrite H3c, H3d. repeat split; congruence.
Qed.

(** A completed export whose sheet write raises is caught: it leaves at
    most one partly written sheet and appends no statistics record. *)
Lemma export_save_fails o w m records w1 w2 :
  SalesforceClient.get_field_labels o (export_start o w) = (Ok m, w1) ->
  SalesforceClient.fetch_data o (Dict.keys m) w1 = (Ok records, w2) ->
  save_succeeds o m records = false ->
  exists e w3 evs,
    export_salesforce_object o w = (Ok tt, w3) /\
    outputs (trace w3) = outputs (trace w) ++ evs /\
    (evs = [] \/ exists t, evs = [EvSheetPartial t]) /\
    fst (save_records o m records w2) = Exc e /\
    statistics w3 = statistics w /\ files w3 = files w.
Proof.
  intros Hfl Hfd Hsave.
  destruct (export_start_outputs o w) as (H0t & H0s & H0f).
  destruct (logs_only_run _ _ _ _ (EffectFacts.get_field_labels_logs_only o) Hfl) as (H1t & H1s & H1f).
  destruct (logs_only_run _ _ _ _ (EffectFacts.fetch_data_logs_only o (Dict.keys m)) Hfd)
    as (H2t & H2s & H2f).
  destruct (save_records_fails o m records w2 Hsave) as (e & w' & evs & Hsr & H3t & Hevs & H3s & H3f).
  unfold export_salesforce_object.
  rewrite (MonadFacts.bind_ok _ _ _ _ _ (export_prelude_run o w)).
  unfold catch, export_body.
  rewrite (MonadFacts.bind_ok _ _ _ _ _ Hfl), (MonadFacts.bind_ok _ _ _ _ _ Hfd).
  rewrite (MonadFacts.bind_exc _ _ _ _ _ Hsr).
  exists e. eexists. exists evs. split; [reflexivity|]. cbn.
  rewrite !outputs_app, H3t, outputs_app. cbn.
  assert (Hl : outputs evs = evs) by (destruct Hevs as [->|[t ->]]; reflexivity).
  rewrite Hl, ?app_nil_r, H2t, H1t, H0t, Hsr.
  repeat split; try assumption; congruence.
Qed.

(** An export whose field resolution or fetch raises is caught: it
    writes no data and appends no statistics record. *)
Lemma export_fails o w e w1 :
  SalesforceClient.get_field_labels o (export_start o w) = (Exc e, w1) \/
  (exists m w0, SalesforceClient.get_field_labels o (export_start o w) = (Ok m, w0) /\
                SalesforceClient.fetch_data o (Dict.keys m) w0 = (Exc e, w1)) ->
  exists w3,
    export_salesforce_object o w = (Ok tt, w3) /\
    outputs (trace w3) = outputs (trace w) /\
    statistics w3 = statistics w /\ files w3 = files w.
Proof.
  intro H.
  destruct (export_start_outputs o w) as (H0t & H0s & H0f).
  assert (Hb : export_body o (clock w) (export_start o w) = (Exc e, w1) /\
               outputs (trace w1) = outputs (trace w) /\
               statistics w1 = statistics w /\ files w1 = files w).
  { destruct H as [Hfl | (m & w0 & Hfl & Hfd)].
    - destruct (logs_only_run _ _ _ _ (EffectFacts.get_field_labels_logs_only o) Hfl)
        as (H1t & H1s & H1f).
      split; [|repeat split; congruence].
      unfold export_body. exact (MonadFacts.bind_exc _ _ _ _ _ Hfl).
    - destruct (logs_only_run _ _ _ _ (EffectFacts.get_field_labels_logs_only o) Hfl)
        as (H1t & H1s & H1f).
      destruct (logs_only_run _ _ _ _ (EffectFacts.fetch_data_logs_only o (Dict.keys m)) Hfd)
        as (H2t & H2s & H2f).
      split; [|repeat split; congruence].
      unfold export_body. rewrite (MonadFacts.bind_ok _ _ _ _ _ Hfl).
      exact (MonadFacts.bind_exc _ _ _ _ _ Hfd). }
  destruct Hb as (Hb & H1t & H1s & H1f).
  unfold export_salesforce_object.
  rewrite (MonadFacts.bind_ok _ _ _ _ _ (export_prelude_run o w)).
  rewrite (MonadFacts.catch_exc _ _ _ _ _ Hb).
  eexists. split; [reflexivity|]. cbn.
  rewrite !outputs_app. cbn. rewrite !app_nil_r. repeat split; congruence.
Qed.

End ExportFacts.

(** C8, corrected: a completed export with at least one record whose
    write succeeds writes exactly one output: below 1,000,000 rows a sheet
    named after the object with every ["__c"] removed and then every ["_"]
    turned into a space, from 1,000,000 rows on the file
    [files/<object>.csv]. With no record it writes nothing. When the sheet
    write raises, the export catches the error: it leaves at most one
    partly written sheet and appends no statistics record. *)
Theorem export_materialized (object_name : string) (w : world)
    (m : SalesforceClient.field_label_map) (records : list sobject) (w1 w2 : world) :
  SalesforceClient.get_field_labels object_name (Effects.export_start object_name w) = (Ok m, w1) ->
  SalesforceClient.fetch_data object_name (Dict.keys m) w1 = (Ok records, w2) ->
  exists w3,
    DataPipeline.export_salesforce_object object_name w = (Ok tt, w3) /\
    (Effects.save_succeeds object_name m records = true ->
     Effects.outputs (trace w3) =
       Effects.outputs (trace w) ++ Effects.materialized object_name m records) /\
    (Effects.save_succeeds object_name m records = false ->
     (exists e, fst (DataPipeline.save_records object_name m records w2) = Exc e) /\
     (Effects.outputs (trace w3) = Effects.outputs (trace w) \/
      exists t, Effects.outputs (trace w3) = Effects.outputs (trace w) ++ [EvSheetPartial t]) /\
     statistics w3 = statistics w).
Proof.
  intros Hfl Hfd.
  destruct (Effects.save_succeeds object_name m records) eqn:Hs.
  - destruct (ExportFacts.export_ok _ _ _ _ _ _ Hfl Hfd Hs) as (w3 & Hrun & Ht & _).
    exists w3. split; [exact Hrun|]. split; [intros _; exact Ht | discriminate].
  - destruct (ExportFacts.export_save_fails _ _ _ _ _ _ Hfl Hfd Hs)
      as (e & w3 & evs & Hrun & Ht & Hevs & He & Hst & _).
    exists w3. split; [exact Hrun|]. split; [discriminate|]. intros _.
    split; [exists e; exact He|]. split; [|exact Hst].
    destruct Hevs as [-> | [t ->]]; [left | right; exists t]; rewrite Ht; [apply app_nil_r | reflexivity].
Qed.

(** C8 counterexample: an export of [Account] that completes with zero
    records writes no sheet and no file, though it is counted in the
    statistics. *)
Lemma completed_empty_export_writes_nothing :
  exists w',
    DataPipeline.export_salesforce_object "Account" (Sample.world1 Sample.quiet_service) =
      (Ok tt, w') /\
    Effects.outputs (trace w') = [] /\ map object_name (statistics w') = ["Account"].
Proof. eexists. split; [vm_compute; reflexivity | split; vm_compute; reflexivity]. Qed.

Lemma export_materialized_witness :
  let w := Sample.world1 Sample.account_service in
  exists m records w1 w2,
    (SalesforceClient.get_field_labels "Account" (Effects.export_start "Account" w) = (Ok m, w1) /\
     SalesforceClient.fetch_data "Account" (Dict.keys m) w1 = (Ok records, w2)) /\
    Effects.save_succeeds "Account" m records = true /\
    Effects.materialized "Account" m records =
      [EvSheet "Account" (DataPipeline.build_frame m records)] /\
    exists w3,
      DataPipeline.export_salesforce_object "Account" w = (Ok tt, w3) /\
      (Effects.save_succeeds "Account" m records = true ->
       Effects.outputs (trace w3) =
         Effects.outputs (trace w) ++ Effects.materialized "Account" m records) /\
      (Effects.save_succeeds "Account" m records = false ->
       (exists e, fst (DataPipeline.save_records "Account" m records w2) = Exc e) /\
       (Effects.outputs (trace w3) = Effects.outputs (trace w) \/
        exists t, Effects.outputs (trace w3) = Effects.outputs (trace w) ++ [EvSheetPartial t]) /\
       statistics w3 = statistics w).
Proof.
  intro w. do 4 eexists.
  set (w1 := snd (SalesforceClient.get_field_labels "Account" (Effects.export_start "Account" w))).
  set (w2 := snd (SalesforceClient.fetch_data "Account" (Dict.keys Sample.account_fields) w1)).
  assert (H1 : SalesforceClient.get_field_labels "Account" (Effects.export_start "Account" w) =
               (Ok Sample.account_fields, w1)) by (vm_compute; reflexivity).
  assert (H2 : SalesforceClient.fetch_data "Account" (Dict.keys Sample.account_fields) w1 =
               (Ok (concat Sample.pages_221), w2)) by (vm_compute; reflexivity).
  split; [split; [exact H1 | exact H2]|]. split; [vm_compute; reflexivity|]. split; [reflexivity|].
  exact (export_materialized "Account" w _ _ _ _ H1 H2).
Defined.

(** C10: an export whose fetch completes with zero records writes no
    sheet and no file, and still appends a statistics record for the
    object. *)
Theorem export_empty_records_counted (object_name : string) (w : world)
    (m : SalesforceClient.field_label_map) (w1 w2 : world) :
  SalesforceClient.get_field_labels object_name (Effects.export_start object_name w) = (Ok m, w1) ->
  SalesforceClient.fetch_data object_name (Dict.keys m) w1 = (Ok [], w2) ->
  exists w3,
    DataPipeline.export_salesforce_object object_name w = (Ok tt, w3) /\
    Effects.outputs (trace w3) = Effects.outputs (trace w) /\
    files w3 = files w /\
    statistics w3 = statistics w ++
      [mkStatistics object_name (clock w) (clock w2) (clock w2 - clock w) (today w2)].
Proof.
  intros Hfl Hfd.
  destruct (ExportFacts.export_ok _ _ _ _ _ _ Hfl Hfd eq_refl) as (w3 & Hrun & Ht & Hs & Hf).
  exists w3. cbn [Effects.materialized] in Ht. rewrite app_nil_r in Ht. auto.
Qed.

Lemma export_empty_records_counted_witness :
  let w := Sample.world1 Sample.quiet_service in
  exists m w1 w2,
    (SalesforceClient.get_field_labels "Account" (Effects.export_start "Account" w) = (Ok m, w1) /\
     SalesforceClient.fetch_data "Account" (Dict.keys m) w1 = (Ok [], w2)) /\
    exists w3,
      DataPipeline.export_salesforce_object "Account" w = (Ok tt, w3) /\
      Effects.outputs (trace w3) = Effects.outputs (trace w) /\
      files w3 = files w /\
      statistics w3 = statistics w ++
        [mkStatistics "Account" (clock w) (clock w2) (clock w2 - clock w) (today w2)].
Proof.
  intro w. do 3 eexists.
  set (w1 := snd (SalesforceClient.get_field_labels "Account" (Effects.export_start "Account" w))).
  set (w2 := snd (SalesforceClient.fetch_data "Account" (Dict.keys (@nil (string * value))) w1)).
  assert (H1 : SalesforceClient.get_field_labels "Account" (Effects.export_start "Account" w) =
               (Ok [], w1)) by (vm_compute; reflexivity).
  assert (H2 : SalesforceClient.fetch_data "Account" (Dict.keys (@nil (string * value))) w1 = (Ok [], w2))
    by (vm_compute; reflexivity).
  split; [split; [exact H1 | exact H2]|].
  exact (export_empty_records_counted "Account" w _ _ _ H1 H2).
Defined.

(** ** [asyncio.gather] over the exports *)

Module GatherFacts.
Import Pipeline Sequential.

Lemma run_ready_idle f n w : Asyncio.run_ready f (repeat [] n) w = (Ok tt, w).
Proof.
  induction f as [|f IH] in n |- *; [reflexivity|].
  destruct n; [reflexivity|]. cbn. apply IH.
Qed.

Lemma repeat_snoc {A} (a : A) n : repeat a n ++ [a] = repeat a (S n).
Proof. induction n as [|n IH]; [reflexivity|]. cbn [repeat app]. rewrite IH. reflexivity. Qed.

Lemma gather_fuel_exports objects :
  Asyncio.gather_fuel (map export_task objects) = 2 * length objects.
Proof.
  unfold Asyncio.gather_fuel. induction objects as [|o objects IH]; [reflexivity|].
  cbn [map fold_right length export_task] in *. lia.
Qed.

(** Each export is one step: the ready queue runs them in order. *)
Lemma run_ready_exports objects : forall f n w,
  length objects <= f ->
  Asyncio.run_ready f (map export_task objects ++ repeat [] n) w = run_in_order objects w.
Proof.
  induction objects as [|o objects IH]; intros f n w Hf.
  - apply run_ready_idle.
  - destruct f as [|f]; [cbn in Hf; lia|].
    cbn [map app Asyncio.run_ready export_task run_in_order].
    unfold bind. destruct (DataPipeline.export_salesforce_object o w) as [[[]|e|] w']; try reflexivity.
    rewrite <- app_assoc, repeat_snoc. apply IH. cbn in Hf. lia.
Qed.

End GatherFacts.

(** C4: the sheet writes of the export tasks are serialized. Each export
    coroutine has no [await], so the event loop behind [asyncio.gather]
    is its single writer: it runs every export as one step, one after the
    other in the configured order, and no two sheet writes overlap. *)
Theorem export_all_sequential (objects : list string) (w : world) :
  Pipeline.export_all objects w = Sequential.run_in_order objects w.
Proof.
  unfold Pipeline.export_all, Asyncio.gather.
  pose proof (GatherFacts.run_ready_exports objects
                (Asyncio.gather_fuel (map Pipeline.export_task objects)) 0 w) as H.
  cbn [repeat] in H. rewrite app_nil_r in H. apply H.
  rewrite GatherFacts.gather_fuel_exports. lia.
Qed.

(** ** [run] *)

Module RunFacts.
Import Effects.

(** With a writer class that did implement [__aenter__], a failing object
    would be isolated: [Broken__c] fails, [Account] is exported and
    counted, and the statistics file is written. *)
Lemma run_async_writer_isolates :
  exists w',
    Pipeline.run_with Sequential.async_writer ["Broken__c"; "Account"]
      (Sample.world0 Sample.broken_service) = (Ok tt, w') /\
    map object_name (statistics w') = ["Account"] /\
    map (fun ev => match ev with EvSheet n _ => n | EvCsv p _ => p | _ => "" end)
      (outputs (trace w')) = ["Account"] /\
    Dict.keys (files w') = [DataPipeline.log_file].
Proof. eexists. split; [vm_compute; reflexivity|]. vm_compute. auto. Qed.

End RunFacts.

(** C3, code bug: [run] enters [async with pd.ExcelWriter(...)], and
    [ExcelWriter] has no [__aenter__]. Once [login] succeeds, this raises
    [TypeError] before any export starts; [run]'s own handler reports
    "Pipeline failed". No object is exported, no statistics record is
    appended, and [save_statistics] never runs. *)
Theorem run_fails_at_excel_writer (w w1 : world) :
  SalesforceClient.login w = (Ok tt, w1) ->
  exists w',
    Pipeline.run w = (Ok tt, w') /\
    trace w' = trace w1 ++
      [EvPrint ("Pipeline failed: " ++ Asyncio.writer_error);
       EvPrint "Traceback (most recent call last)"] /\
    Effects.outputs (trace w') = Effects.outputs (trace w) /\
    statistics w' = statistics w /\ files w' = files w.
Proof.
  intro Hl.
  destruct (ExportFacts.logs_only_run _ _ _ _ EffectFacts.login_logs_only Hl) as (Ht & Hs & Hf).
  unfold Pipeline.run, Pipeline.run_with.
  rewrite (MonadFacts.catch_exc _ _ w (TypeError Asyncio.writer_error) w1).
  - eexists. split; [reflexivity|].
    cbn [bind print emit trace statistics files]. rewrite <- app_assoc.
    split; [reflexivity|].
    rewrite ExportFacts.outputs_app. cbn. rewrite app_nil_r. auto.
  - rewrite (MonadFacts.bind_ok _ _ _ _ _ Hl). reflexivity.
Qed.

Lemma run_fails_at_excel_writer_witness :
  let w := Sample.world0 Sample.broken_service in
  let w1 := snd (SalesforceClient.login w) in
  SalesforceClient.login w = (Ok tt, w1) /\
  exists w',
    Pipeline.run w = (Ok tt, w') /\
    trace w' = trace w1 ++
      [EvPrint ("Pipeline failed: " ++ Asyncio.writer_error);
       EvPrint "Traceback (most recent call last)"] /\
    Effects.outputs (trace w') = Effects.outputs (trace w) /\
    statistics w' = statistics w /\ files w' = files w.
Proof.
  intros w w1.
  assert (Hl : SalesforceClient.login w = (Ok tt, w1)) by (vm_compute; reflexivity).
  split; [exact Hl|]. exact (run_fails_at_excel_writer w w1 Hl).
Defined.

(** ** [save_statistics] *)

Module StatisticsFacts.
Import DataPipeline.

Lemma get_existsb (d : list (string * table)) k t :
  Dict.get String.eqb d k = Some t -> existsb (fun pf => String.eqb (fst pf) k) d = true.
Proof.
  induction d as [|[k' v] d IH]; cbn; [discriminate|].
  destruct (String.eqb_spec k k') as [<-|Hne].
  - rewrite String.eqb_refl. reflexivity.
  - intro H. rewrite (IH H), orb_true_r. reflexivity.
Qed.

Lemma get_none_existsb (d : list (string * table)) k :
  Dict.get String.eqb d k = None -> existsb (fun pf => String.eqb (fst pf) k) d = false.
Proof.
  induction d as [|[k' v] d IH]; cbn; [reflexivity|].
  destruct (String.eqb_spec k k') as [<-|Hne]; [discriminate|].
  intro H. rewrite (IH H). destruct (String.eqb_spec k' k); [congruence|reflexivity].
Qed.

(** A log file with a header: the run's records are appended to it. *)
Lemma save_statistics_existing w t :
  Dict.get String.eqb (files w) log_file = Some t -> columns t <> [] ->
  exists w',
    save_statistics w = (Ok tt, w') /\
    Dict.get String.eqb (files w') log_file =
      Some (Pandas.concat t (Pandas.DataFrame (map stat_row (statistics w)))) /\
    statistics w' = statistics w.
Proof.
  intros Hget Hcol. unfold save_statistics.
  rewrite (MonadFacts.bind_ok get_statistics _ w (statistics w) w eq_refl).
  rewrite (MonadFacts.bind_ok (file_exists log_file) _ w true w)
    by (unfold file_exists; rewrite (get_existsb _ _ _ Hget); reflexivity).
  cbv beta iota.
  rewrite (MonadFacts.bind_ok
             (let* existing_df := Pandas.read_csv log_file in
              ret (Pandas.concat existing_df (Pandas.DataFrame (map stat_row (statistics w)))))
             _ w (Pandas.concat t (Pandas.DataFrame (map stat_row (statistics w)))) w).
  - eexists. split; [reflexivity|]. cbn [print emit files statistics Pandas.to_csv write_file].
    split; [|reflexivity].
    rewrite (DictFacts.get_set String.eqb String.eqb_spec), String.eqb_refl. reflexivity.
  - assert (Hr : Pandas.read_csv log_file w = (Ok t, w)).
    { unfold Pandas.read_csv.
      rewrite (MonadFacts.bind_ok (read_file log_file) _ w t w)
        by (unfold read_file; rewrite Hget; reflexivity).
      destruct (columns t); [contradiction|reflexivity]. }
    rewrite (MonadFacts.bind_ok _ _ _ _ _ Hr). reflexivity.
Qed.

(** No log file yet: it is written from the run's records alone. *)
Lemma save_statistics_fresh w :
  Dict.get String.eqb (files w) log_file = None ->
  exists w',
    save_statistics w = (Ok tt, w') /\
    Dict.get String.eqb (files w') log_file =
      Some (Pandas.DataFrame (map stat_row (statistics w))).
Proof.
  intro Hget. unfold save_statistics.
  rewrite (MonadFacts.bind_ok get_statistics _ w (statistics w) w eq_refl).
  rewrite (MonadFacts.bind_ok (file_exists log_file) _ w false w)
    by (unfold file_exists; rewrite (get_none_existsb _ _ Hget); reflexivity).
  eexists. split; [reflexivity|]. cbn [print emit files statistics Pandas.to_csv write_file].
  rewrite (DictFacts.get_set String.eqb String.eqb_spec), String.eqb_refl. reflexivity.
Qed.

End StatisticsFacts.

(** C9, code bug: a run that flushes no statistics record, with no log
    file yet, writes a file without a header. The next run's flush fails
    in [pd.read_csv] with [EmptyDataError], so that run's records are
    never written: the file still holds no record. *)
Theorem statistics_lost_after_empty_flush :
  let w := Sample.world1 Sample.quiet_service in
  let s := mkStatistics "Account" 0 3 3 "2024-05-01" in
  exists w1 w2,
    DataPipeline.save_statistics w = (Ok tt, w1) /\
    Dict.get String.eqb (files w1) DataPipeline.log_file = Some (mkTable [] []) /\
    DataPipeline.save_statistics (Sample.next_run w1 [s]) =
      (Exc (EmptyDataError "No columns to parse from file"), w2) /\
    Dict.get String.eqb (files w2) DataPipeline.log_file = Some (mkTable [] []) /\
    statistics w2 = [s].
Proof.
  intros w s. do 2 eexists.
  split; [vm_compute; reflexivity|].
  split; [vm_compute; reflexivity|].
  split; [vm_compute; reflexivity|].
  split; vm_compute; reflexivity.
Qed.

(** * Further properties of the pipeline *)

(** ** Retries and back-off *)

Module BackoffFacts.
Import Effects.

Lemma sleeps_app t1 t2 : sleeps (t1 ++ t2) = sleeps t1 ++ sleeps t2.
Proof. induction t1 as [|[] t1 IH]; [reflexivity| ..]; unfold sleeps in *; cbn [fold_right app]; rewrite IH; reflexivity. Qed.

(** A body that fails on every attempt: the loop sleeps after each one,
    with the attempt indices [i], ..., [i + n - 1], then raises. [P] is an
    invariant that only looks at the Salesforce side of the state. *)
Lemma retry_loop_fail_sleeps {A} label retries exh (body : M A) (P : world -> Prop) :
  (forall w1 w2, P w1 -> provider w2 = provider w1 -> sf_hist w2 = sf_hist w1 ->
                 sf w2 = sf w1 -> loop_fuel w2 = loop_fuel w1 -> P w2) ->
  (forall w, P w -> exists e w1, body w = (Exc e, w1) /\ P w1 /\
                                 sleeps (trace w1) = sleeps (trace w)) ->
  forall n i w, P w ->
  exists w', SalesforceClient.retry_loop label retries i n body exh w = (Exc exh, w') /\
             P w' /\ sleeps (trace w') = sleeps (trace w) ++ seq i n.
Proof.
  intros Htr Hb. induction n as [|n IH]; intros i w Hw.
  - exists w. rewrite app_nil_r. auto.
  - destruct (Hb w Hw) as (e & w1 & Hrun & Hw1 & Hs1).
    destruct (RetryFacts.retry_loop_step_exc label retries i n body exh w e w1 Hrun)
      as (w2 & Heq & Hp & Hh & Hsf & Hf & Ht).
    destruct (IH (S i) w2 (Htr w1 w2 Hw1 Hp Hh Hsf Hf)) as (w' & Hrun' & Hw' & Hs').
    exists w'. rewrite Heq. split; [exact Hrun'|]. split; [exact Hw'|].
    rewrite Hs', Ht, sleeps_app, Hs1. cbn. rewrite <- app_assoc. reflexivity.
Qed.

Lemma login_body_refused w :
  (forall h, exists m, provider w h SalesforceClient.login_call = RespError m) ->
  exists e w1, SalesforceClient.login_body w = (Exc e, w1) /\
    (forall h, exists m, provider w1 h SalesforceClient.login_call = RespError m) /\
    sleeps (trace w1) = sleeps (trace w).
Proof.
  intro Hfail. destruct (Hfail (sf_hist w)) as [m Hm].
  exists (SalesforceError m), (Paging.log_calls w [SalesforceClient.login_call]).
  split; [|split; [exact Hfail | reflexivity]].
  unfold SalesforceClient.login_body.
  apply MonadFacts.bind_exc, MonadFacts.sf_request_error, Hm.
Qed.

End BackoffFacts.

(** When every login is refused, [login] sleeps after each of its five
    attempts, with the attempt indices 0 to 4 in order (the wait
    [2 ** i + random.uniform(0, 1)] grows with them), and then raises;
    the client keeps no session. *)
Theorem login_backoff (w : world) :
  (forall h, exists m, provider w h SalesforceClient.login_call = RespError m) ->
  exists w',
    SalesforceClient.login w =
      (Exc (Exception "Max retries reached, Salesforce login failed."), w') /\
    Effects.sleeps (trace w') = Effects.sleeps (trace w) ++ [0; 1; 2; 3; 4] /\
    sf w' = sf w.
Proof.
  intro Hfail.
  destruct (BackoffFacts.retry_loop_fail_sleeps "Login" 5
              (Exception "Max retries reached, Salesforce login failed.")
              SalesforceClient.login_body
              (fun w' => (forall h, exists m, provider w' h SalesforceClient.login_call = RespError m)
                         /\ sf w' = sf w))
    with (n := 5) (i := 0) (w := w) as (w' & Hrun & (_ & Hsf) & Hs).
  - intros w1 w2 (H1 & H2) Hp _ Hs _. rewrite Hp, Hs. auto.
  - intros w0 (H0 & Hsf0).
    destruct (BackoffFacts.login_body_refused w0 H0) as (e & w1 & Hrun & H1 & Hs1).
    exists e, w1. split; [exact Hrun|]. split; [|exact Hs1]. split; [exact H1|].
    rewrite <- Hsf0. unfold SalesforceClient.login_body in Hrun.
    destruct (H0 (sf_hist w0)) as [m Hm].
    rewrite (MonadFacts.bind_exc _ _ _ (SalesforceError m) (Paging.log_calls w0 [SalesforceClient.login_call]))
      in Hrun by (apply MonadFacts.sf_request_error, Hm).
    injection Hrun as _ <-. reflexivity.
  - auto.
  - exists w'. split; [exact Hrun|]. split; [exact Hs | exact Hsf].
Qed.

Lemma login_backoff_witness :
  let w := Sample.world0 Sample.rejects_login in
  (forall h, exists m, provider w h SalesforceClient.login_call = RespError m) /\
  exists w',
    SalesforceClient.login w =
      (Exc (Exception "Max retries reached, Salesforce login failed."), w') /\
    Effects.sleeps (trace w') = Effects.sleeps (trace w) ++ [0; 1; 2; 3; 4] /\
    sf w' = sf w.
Proof.
  intro w.
  assert (H : forall h, exists m, provider w h SalesforceClient.login_call = RespError m)
    by (intro h; eexists; reflexivity).
  split; [exact H | exact (login_backoff w H)].
Defined.

(** Before a successful [login] ([self.sf] is [None]), [get_field_labels]
    raises [AttributeError] at once, and [fetch_data] fails each of its
    five attempts the same way, sleeping after each, and raises; neither
    sends any call to Salesforce. *)
Theorem salesforce_calls_need_login (object_name : string) (fields : list string) (w : world) :
  sf w = None ->
  SalesforceClient.get_field_labels object_name w =
    (Exc (AttributeError "'NoneType' object has no attribute 'query_all'"), w) /\
  exists w',
    SalesforceClient.fetch_data object_name fields w =
      (Exc (Exception ("Max retries reached, query failed for " ++ object_name)), w') /\
    sf_hist w' = sf_hist w /\
    Effects.sleeps (trace w') = Effects.sleeps (trace w) ++ [0; 1; 2; 3; 4].
Proof.
  intro Hsf. split.
  - unfold SalesforceClient.get_field_labels, require_sf, bind. rewrite Hsf. reflexivity.
  - unfold SalesforceClient.fetch_data, SalesforceClient.retry_range.
    set (soql := SalesforceClient.select_query object_name fields).
    rewrite (MonadFacts.bind_ok (print ("Executing query: " ++ soql)) _ w tt _ eq_refl).
    set (w0 := mkWorld (provider w) (sf_hist w) (sf w) (clock w) (today w) (loop_fuel w)
                 (trace w ++ [EvPrint ("Executing query: " ++ soql)]) (statistics w) (files w)).
    destruct (BackoffFacts.retry_loop_fail_sleeps "Query" 5
                (Exception ("Max retries reached, query failed for " ++ object_name))
                (SalesforceClient.fetch_body soql)
                (fun w' => sf w' = None /\ sf_hist w' = sf_hist w))
      with (n := 5) (i := 0) (w := w0) as (w' & Hrun & (_ & Hh) & Hs).
    + intros w1 w2 (H1 & H2) _ Hh Hs _. rewrite Hh, Hs. auto.
    + intros w1 (H1 & H2). exists (AttributeError "'NoneType' object has no attribute 'query'"), w1.
      split; [|auto]. unfold SalesforceClient.fetch_body, require_sf, bind. rewrite H1. reflexivity.
    + split; [exact Hsf | reflexivity].
    + exists w'. split; [exact Hrun|]. split; [exact Hh|]. rewrite Hs.
      subst w0. cbn [trace]. rewrite BackoffFacts.sleeps_app. cbn. rewrite app_nil_r. reflexivity.
Qed.

Lemma salesforce_calls_need_login_witness :
  let w := Sample.world0 Sample.quiet_service in
  sf w = None /\
  SalesforceClient.get_field_labels "Account" w =
    (Exc (AttributeError "'NoneType' object has no attribute 'query_all'"), w) /\
  exists w',
    SalesforceClient.fetch_data "Account" ["Id"] w =
      (Exc (Exception ("Max retries reached, query failed for " ++ "Account")), w') /\
    sf_hist w' = sf_hist w /\
    Effects.sleeps (trace w') = Effects.sleeps (trace w) ++ [0; 1; 2; 3; 4].
Proof.
  intro w. split; [reflexivity|].
  exact (salesforce_calls_need_login "Account" ["Id"] w eq_refl).
Defined.

(** When every login is refused, [run] reports "Pipeline failed" with the
    exhausted-retries message and stops: it exports nothing, appends no
    statistics record and writes no file. *)
Theorem run_login_failure (w : world) :
  (forall h, exists m, provider w h SalesforceClient.login_call = RespError m) ->
  exists w',
    Pipeline.run w = (Ok tt, w') /\
    Effects.outputs (trace w') = Effects.outputs (trace w) /\
    statistics w' = statistics w /\ files w' = files w /\
    exists before, trace w' = before ++
      [EvPrint ("Pipeline failed: " ++ "Max retries reached, Salesforce login failed.");
       EvPrint "Traceback (most recent call last)"].
Proof.
  intro Hfail.
  destruct (RetryFacts.login_loop_fail (Exception "Max retries reached, Salesforce login failed.")
              5 0 w Hfail) as (w1 & Hl & _).
  change (SalesforceClient.login w =
            (Exc (Exception "Max retries reached, Salesforce login failed."), w1)) in Hl.
  destruct (ExportFacts.logs_only_run _ _ _ _ EffectFacts.login_logs_only Hl) as (Ht & Hs & Hf).
  unfold Pipeline.run, Pipeline.run_with.
  rewrite (MonadFacts.catch_exc _ _ w (Exception "Max retries reached, Salesforce login failed.") w1)
    by exact (MonadFacts.bind_exc _ _ _ _ _ Hl).
  eexists. split; [reflexivity|]. cbn [bind print emit trace statistics files].
  rewrite <- app_assoc. split; [|split; [exact Hs|split; [exact Hf|eexists; reflexivity]]].
  rewrite ExportFacts.outputs_app. cbn. rewrite app_nil_r. exact Ht.
Qed.

Lemma run_login_failure_witness :
  let w := Sample.world0 Sample.rejects_login in
  (forall h, exists m, provider w h SalesforceClient.login_call = RespError m) /\
  exists w',
    Pipeline.run w = (Ok tt, w') /\
    Effects.outputs (trace w') = Effects.outputs (trace w) /\
    statistics w' = statistics w /\ files w' = files w /\
    exists before, trace w' = before ++
      [EvPrint ("Pipeline failed: " ++ "Max retries reached, Salesforce login failed.");
       EvPrint "Traceback (most recent call last)"].
Proof.
  intro w.
  assert (H : forall h, exists m, provider w h SalesforceClient.login_call = RespError m)
    by (intro h; eexists; reflexivity).
  split; [exact H | exact (run_login_failure w H)].
Defined.

(** ** Exports *)

Module ExportMoreFacts.
Import SalesforceClient FieldResolution DataPipeline.

Lemma collect_fields_prefix pre rest acc w :
  collect_fields (map (fun ql => field_definition (fst ql) (snd ql)) pre ++ rest) acc w
  = collect_fields rest (fold_left resolve_step pre acc) w.
Proof.
  revert acc. induction pre as [|[q l] pre IH]; intro acc; [reflexivity|].
  cbn -[keep_field]. unfold resolve_step at 2; cbn -[keep_field].
  destruct (keep_field q); apply IH.
Qed.

Lemma find_rev_nodup {A B} (eqb : B -> B -> bool) (f : A -> B) (xs : list A) k :
  (forall a b, reflect (a = b) (eqb a b)) ->
  NoDup (map f xs) ->
  find (fun x => eqb (f x) k) (rev xs) = find (fun x => eqb (f x) k) xs.
Proof.
  intros Hspec. induction xs as [|x xs IH]; intro Hnd; [reflexivity|].
  inversion Hnd as [|? ? Hnot Hnd']; subst.
  cbn [rev]. rewrite DictFacts.find_app', (IH Hnd'). cbn [find].
  destruct (find (fun y => eqb (f y) k) xs) as [y|] eqn:E.
  - apply find_some in E as [Hy Hfy].
    destruct (Hspec (f x) k) as [Hx|]; [|reflexivity].
    destruct (Hspec (f y) k) as [Hk|]; [|discriminate].
    exfalso. apply Hnot. rewrite Hx, <- Hk. apply in_map, Hy.
  - destruct (eqb (f x) k); reflexivity.
Qed.

Lemma find_key_get {K V} (keqb : K -> K -> bool) (d : Dict.t (K := K) (V := V)) k :
  (forall a b, reflect (a = b) (keqb a b)) ->
  find (fun kv => keqb (fst kv) k) d =
  match Dict.get keqb d k with Some v => Some (k, v) | None => None end.
Proof.
  intro Hspec. induction d as [|[k' v] d IH]; [reflexivity|]. cbn [find fst Dict.get].
  destruct (Hspec k' k) as [->|Hne].
  - destruct (Hspec k k); [reflexivity | congruence].
  - destruct (Hspec k k') as [Heq|]; [congruence | exact IH].
Qed.

Lemma replace_underscore_clean fuel s :
  String.length s < fuel -> Str.contains "_" (Str.replace_fuel fuel "_" " " s) = false.
Proof.
  revert s. induction fuel as [|f IH]; intros s Hlen; [inversion Hlen|].
  destruct s as [|c s']; [reflexivity|]. cbn in Hlen.
  cbn [Str.replace_fuel Str.starts_with].
  destruct (Ascii.eqb "_" c) eqn:Ec; cbn [andb].
  - cbn. apply IH. lia.
  - cbn [Str.contains Str.starts_with]. rewrite Ec. cbn [andb orb]. apply IH. lia.
Qed.

End ExportMoreFacts.

(** [export_salesforce_object] never raises: whatever its [try] block
    raises is caught and printed, so an export task never stops
    [asyncio.gather]. *)
Theorem export_never_raises (object_name : string) (w w' : world) (e : exn) :
  DataPipeline.export_salesforce_object object_name w <> (Exc e, w').
Proof.
  unfold DataPipeline.export_salesforce_object.
  rewrite (MonadFacts.bind_ok _ _ _ _ _ (ExportFacts.export_prelude_run object_name w)).
  unfold catch.
  destruct (DataPipeline.export_body object_name (clock w) (Effects.export_start object_name w))
    as [[a|e0|] w1]; discriminate.
Qed.

(** An export whose field resolution or fetch raises writes no data,
    appends no statistics record and touches no local file; the error is
    only printed. *)
Theorem export_failure_caught (object_name : string) (w : world) (e : exn) (w1 : world) :
  SalesforceClient.get_field_labels object_name (Effects.export_start object_name w) = (Exc e, w1) \/
  (exists m w0,
     SalesforceClient.get_field_labels object_name (Effects.export_start object_name w) = (Ok m, w0) /\
     SalesforceClient.fetch_data object_name (Dict.keys m) w0 = (Exc e, w1)) ->
  exists w3,
    DataPipeline.export_salesforce_object object_name w = (Ok tt, w3) /\
    Effects.outputs (trace w3) = Effects.outputs (trace w) /\
    statistics w3 = statistics w /\ files w3 = files w.
Proof. apply ExportFacts.export_fails. Qed.

Lemma export_failure_caught_witness :
  let w := Sample.world1 Sample.broken_service in
  exists e w1,
    SalesforceClient.get_field_labels "Broken__c" (Effects.export_start "Broken__c" w) = (Exc e, w1) /\
    exists w3,
      DataPipeline.export_salesforce_object "Broken__c" w = (Ok tt, w3) /\
      Effects.outputs (trace w3) = Effects.outputs (trace w) /\
      statistics w3 = statistics w /\ files w3 = files w.
Proof.
  intro w.
  set (w1 := snd (SalesforceClient.get_field_labels "Broken__c" (Effects.export_start "Broken__c" w))).
  assert (H : SalesforceClient.get_field_labels "Broken__c" (Effects.export_start "Broken__c" w) =
              (Exc (SalesforceError "INVALID_TYPE: sObject type 'Broken__c' is not supported."), w1))
    by (vm_compute; reflexivity).
  do 2 eexists. split; [exact H|].
  exact (export_failure_caught "Broken__c" w _ _ (or_introl H)).
Defined.




(** The sheet name of an export holds no underscore: after ["__c"] is
    removed, every remaining ["_"] becomes a space. *)
Theorem sheet_name_no_underscore (object_name : string) :
  Str.contains "_" (DataPipeline.sheet_name object_name) = false.
Proof.
  unfold DataPipeline.sheet_name, Str.replace.
  apply ExportMoreFacts.replace_underscore_clean. lia.
Qed.

(** A field row that passes the field filter but has no ["Label"] key
    makes [get_field_labels] raise [KeyError('Label')], whatever the
    well-formed rows before it and the rows after it; the metadata query
    is the only call it makes. *)
Theorem get_field_labels_missing_label (object_name : string) (w : world)
    (pre : list (string * value)) (r : sobject) (post : list sobject) (q : string)
    (next : option string) (d : bool) :
  sf w <> None ->
  provider w (sf_hist w) (CallQueryAll (SalesforceClient.field_query object_name)) =
    RespPage (mkPage (map (fun ql => FieldResolution.field_definition (fst ql) (snd ql)) pre
                      ++ r :: post) next d) ->
  Dict.get String.eqb r "QualifiedApiName" = Some (VStr q) ->
  SalesforceClient.keep_field q = true ->
  Dict.get String.eqb r "Label" = None ->
  SalesforceClient.get_field_labels object_name w =
    (Exc (KeyError "Label"),
     Paging.log_calls w [CallQueryAll (SalesforceClient.field_query object_name)]).
Proof.
  intros Hsf Hp Hq Hk Hl.
  destruct (sf w) as [conn|] eqn:Es; [|contradiction].
  unfold SalesforceClient.get_field_labels.
  rewrite (MonadFacts.bind_ok _ _ _ _ _ (MonadFacts.require_sf_ok "query_all" w conn Es)).
  rewrite (MonadFacts.bind_ok _ _ _ _ _ (MonadFacts.sf_request_page _ _ _ Hp)).
  cbn [expect_page ret bind page_records].
  rewrite ExportMoreFacts.collect_fields_prefix.
  cbn [SalesforceClient.collect_fields bind].
  unfold SalesforceClient.getitem at 1. rewrite Hq.
  rewrite (MonadFacts.bind_ok (ret (VStr q)) _ _ (VStr q) _ eq_refl).
  rewrite Hk. unfold bind, SalesforceClient.getitem. rewrite Hl. reflexivity.
Qed.

Lemma get_field_labels_missing_label_witness :
  let r : sobject := [("QualifiedApiName", VStr "Region__c")] in
  let p := fun (h : list sf_call) (c : sf_call) =>
    match c with
    | CallQueryAll _ =>
        RespPage (mkPage (map (fun ql => FieldResolution.field_definition (fst ql) (snd ql))
                            [("Id", VStr "Account ID")] ++ [r]) None true)
    | _ => Sample.quiet_service h c
    end in
  let w := Sample.world1 p in
  SalesforceClient.get_field_labels "Account" w =
    (Exc (KeyError "Label"),
     Paging.log_calls w [CallQueryAll (SalesforceClient.field_query "Account")]).
Proof.
  intros r p w.
  apply (get_field_labels_missing_label "Account" w [("Id", VStr "Account ID")] r [] "Region__c"
           None true); [discriminate | reflexivity | reflexivity | reflexivity | reflexivity].
Defined.

(** Two resolved fields that share a label give one column: the row
    transform has no two columns with the same label, and keeps, under a
    label, the value of the field that comes last in the field-label map;
    a label no field has is absent. *)
Theorem build_row_last_label (m : SalesforceClient.field_label_map) (record : sobject)
    (label : value) :
  NoDup (Dict.keys (DataPipeline.build_row (DataPipeline.invert m) record)) /\
  Dict.get value_eqb (DataPipeline.build_row (DataPipeline.invert m) record) label =
  match find (fun kv => value_eqb (snd kv) label) (rev m) with
  | Some kv => Some (Dict.get_default String.eqb record (fst kv) (VStr ""))
  | None => None
  end.
Proof.
  split.
  { unfold DataPipeline.build_row.
    apply (DictFacts.fold_set_nodup value_eqb value_eqb_spec fst
             (fun la => Dict.get_default String.eqb record (snd la) (VStr ""))).
    constructor. }
  unfold DataPipeline.build_row.
  rewrite (DictFacts.fold_set_get value_eqb value_eqb_spec fst
             (fun la => Dict.get_default String.eqb record (snd la) (VStr ""))).
  rewrite (ExportMoreFacts.find_rev_nodup value_eqb fst _ label value_eqb_spec
             (RowFacts.invert_nodup m)).
  rewrite (ExportMoreFacts.find_key_get value_eqb _ label value_eqb_spec).
  unfold DataPipeline.invert.
  rewrite (DictFacts.fold_set_get value_eqb value_eqb_spec snd fst).
  destruct (find (fun kv => value_eqb (snd kv) label) (rev m)); reflexivity.
Qed.

(** ** The statistics log *)

Module StatisticsMoreFacts.
Import DataPipeline.

Definition stat_header : list string :=
  ["Object Name"; "Start Time"; "End Time"; "Duration (Seconds)"; "Last Refresh Date"].

Lemma stat_frame stats :
  Pandas.DataFrame (map stat_row stats) =
  mkTable (match stats with [] => [] | _ => stat_header end) (map stat_row stats).
Proof.
  unfold Pandas.DataFrame. f_equal. destruct stats as [|s stats]; [reflexivity|].
  cbn [map fold_left].
  replace (Pandas.add_columns [] (map fst (stat_row s))) with stat_header by reflexivity.
  induction stats as [|s' stats IH]; [reflexivity|]. cbn [map fold_left].
  replace (Pandas.add_columns stat_header (map fst (stat_row s'))) with stat_header
    by reflexivity.
  exact IH.
Qed.

End StatisticsMoreFacts.

(** With no log file yet, [save_statistics] writes the run's records, one
    row each in order; the header is the five statistics columns, or
    nothing at all when the run has no record. *)
Theorem save_statistics_fresh_header (w : world) :
  Dict.get String.eqb (files w) DataPipeline.log_file = None ->
  exists w',
    DataPipeline.save_statistics w = (Ok tt, w') /\
    Dict.get String.eqb (files w') DataPipeline.log_file =
      Some (mkTable (match statistics w with
                     | [] => []
                     | _ => ["Object Name"; "Start Time"; "End Time";
                             "Duration (Seconds)"; "Last Refresh Date"]
                     end)
                    (map DataPipeline.stat_row (statistics w))).
Proof.
  intro Hnone.
  destruct (StatisticsFacts.save_statistics_fresh w Hnone) as (w' & Hrun & Hget).
  exists w'. split; [exact Hrun|]. rewrite Hget, StatisticsMoreFacts.stat_frame. reflexivity.
Qed.

Lemma save_statistics_fresh_header_witness :
  let w := Sample.next_run (Sample.world1 Sample.quiet_service)
             [mkStatistics "Account" 0 3 3 "2024-05-01"] in
  Dict.get String.eqb (files w) DataPipeline.log_file = None /\
  exists w',
    DataPipeline.save_statistics w = (Ok tt, w') /\
    Dict.get String.eqb (files w') DataPipeline.log_file =
      Some (mkTable (match statistics w with
                     | [] => []
                     | _ => ["Object Name"; "Start Time"; "End Time";
                             "Duration (Seconds)"; "Last Refresh Date"]
                     end)
                    (map DataPipeline.stat_row (statistics w))).
Proof.
  intro w. assert (H : Dict.get String.eqb (files w) DataPipeline.log_file = None) by reflexivity.
  split; [exact H | exact (save_statistics_fresh_header w H)].
Defined.

(** With a log file that has a header, [save_statistics] rewrites it with
    its rows followed by the run's records in order, and keeps the
    run's records. *)
Theorem save_statistics_appends (w : world) (t : table) :
  Dict.get String.eqb (files w) DataPipeline.log_file = Some t ->
  columns t <> [] ->
  exists w' t',
    DataPipeline.save_statistics w = (Ok tt, w') /\
    Dict.get String.eqb (files w') DataPipeline.log_file = Some t' /\
    rows t' = rows t ++ map DataPipeline.stat_row (statistics w) /\
    statistics w' = statistics w.
Proof.
  intros Hget Hcol.
  destruct (StatisticsFacts.save_statistics_existing w t Hget Hcol) as (w' & Hrun & Hfile & Hs).
  exists w', (Pandas.concat t (Pandas.DataFrame (map DataPipeline.stat_row (statistics w)))).
  split; [exact Hrun|]. split; [exact Hfile|]. split; [reflexivity | exact Hs].
Qed.

Lemma save_statistics_appends_witness :
  let hdr := ["Object Name"; "Start Time"; "End Time"; "Duration (Seconds)"; "Last Refresh Date"] in
  let old := mkTable hdr [DataPipeline.stat_row (mkStatistics "Account" 0 3 3 "2024-04-30")] in
  let w := mkWorld Sample.quiet_service [] None 10 "2024-05-01" 1000 []
             [mkStatistics "Contact" 10 12 2 "2024-05-01"] [(DataPipeline.log_file, old)] in
  (Dict.get String.eqb (files w) DataPipeline.log_file = Some old /\ columns old <> []) /\
  exists w' t',
    DataPipeline.save_statistics w = (Ok tt, w') /\
    Dict.get String.eqb (files w') DataPipeline.log_file = Some t' /\
    rows t' = rows old ++ map DataPipeline.stat_row (statistics w) /\
    statistics w' = statistics w.
Proof.
  intros hdr old w.
  assert (H1 : Dict.get String.eqb (files w) DataPipeline.log_file = Some old) by reflexivity.
  assert (H2 : columns old <> []) by discriminate.
  split; [split; [exact H1 | exact H2] | exact (save_statistics_appends w old H1 H2)].
Defined.

(** ** Google Drive *)

Module DriveFacts.
Import GoogleDrive GoogleDriveClient.

Ltac drive_cases H :=
  repeat (cbv beta iota zeta in H;
          first [ discriminate H
                | match type of H with
                  | context[if ?b then _ else _] => destruct b
                  | context[match ?l with [] => _ | _ :: _ => _ end] => destruct l
                  end ]).

Lemma dbind_done {A B} (c : DM A) (k : A -> DM B) s a s' :
  c s = (Done a, s') -> dbind c k s = k a s'.
Proof. intro H. unfold dbind. rewrite H. reflexivity. Qed.

Lemma dbind_raised {A B} (c : DM A) (k : A -> DM B) s e s' :
  c s = (Raised e, s') -> dbind c k s = (Raised e, s').
Proof. intro H. unfold dbind. rewrite H. reflexivity. Qed.

(** A [try] block that raises leaves the state as it found it. *)
Lemma upload_try_raised p n log t s e s' :
  upload_try p n log t s = (Raised e, s') -> s' = s.
Proof.
  intro H.
  unfold upload_try, dbind, get_folder_id, files_list, api, media_file_upload, files_update,
    files_create, dnow, dret, api in H.
  drive_cases H; injection H as _ <-; reflexivity.
Qed.

(** A [try] block that completes reports success, and touches neither the
    logs nor the local files. *)
Lemma upload_try_done p n log t s l s' :
  upload_try p n log t s = (Done l, s') ->
  (exists t', l = log_update log
     [("End Date Time", LTime t'); ("Duration (seconds)", LNum (t' - t));
      ("Is Success", LBool true);
      ("Message", LStr ("File '" ++ n ++ "' uploaded successfully."))]) /\
  logs s' = logs s.
Proof.
  intro H.
  unfold upload_try, dbind, get_folder_id, files_list, api, media_file_upload, files_update,
    files_create, dnow, dret, api in H.
  drive_cases H; injection H as <- <-; (split; [eexists; reflexivity | reflexivity]).
Qed.

Definition log_keys : list string :=
  ["Object Name"; "Operation"; "Start Date Time"; "End Date Time"; "Duration (seconds)";
   "Is Success"; "Message"].

Lemma upload_file_run p s :
  exists log s',
    upload_file p s = (Done log, s') /\ Dict.keys log = log_keys /\
    Dict.get String.eqb log "Object Name" = Some (LStr (Str.basename p)) /\
    logs s' = logs s.
Proof.
  unfold upload_file. rewrite (dbind_done dnow _ s (dclock s) (with_clock (S (dclock s)) s) eq_refl).
  unfold dtry.
  destruct (upload_try p (Str.basename p) _ (dclock s) (with_clock (S (dclock s)) s))
    as [[l|e] s1] eqn:E.
  - destruct (upload_try_done _ _ _ _ _ _ _ E) as ((t' & ->) & Hl).
    do 2 eexists. split; [reflexivity|]. split; [reflexivity|]. split; [reflexivity|].
    rewrite Hl. reflexivity.
  - apply upload_try_raised in E. subst s1.
    do 2 eexists. split; [reflexivity|]. split; [reflexivity|]. split; reflexivity.
Qed.

Lemma upload_try_success p n log t s fid :
  service s = true -> reachable s = true -> folder_id s = Some fid ->
  existsb (fun m => String.eqb (path_join Config.LOCAL_FOLDER m) p) (local s) = true ->
  live_id s fid = true ->
  exists l s',
    upload_try p n log t s = (Done l, s') /\
    l = log_update log
      [("End Date Time", LTime (dclock s)); ("Duration (seconds)", LNum (dclock s - t));
       ("Is Success", LBool true);
       ("Message", LStr ("File '" ++ n ++ "' uploaded successfully."))] /\
    drive s' =
      match filter (satisfies (in_folder_query_of n fid)) (drive s) with
      | f :: _ => map (bump (id f)) (drive s)
      | [] => drive s ++ [mkFile ("file-" ++ Str.of_nat (next_id s)) n (guess_type p) false [fid] 1]
      end.
Proof.
  intros Hs Hr Hf Hm Hl.
  unfold upload_try, dbind, get_folder_id, files_list, api, media_file_upload, files_update,
    files_create, dnow, dret, api.
  repeat progress (cbv beta iota zeta delta [negb py_str]; rewrite ?Hs, ?Hr, ?Hf, ?Hm).
  fold (in_folder_query_of n fid).
  destruct (filter (satisfies (in_folder_query_of n fid)) (drive s)) as [|f fs] eqn:Ef.
  - replace (forallb (live_id s) [fid]) with true by (cbn [forallb]; rewrite Hl; reflexivity).
    repeat progress (cbv beta iota zeta delta [negb]; rewrite ?Hs, ?Hr).
    do 2 eexists. split; [reflexivity|]. split; reflexivity.
  - assert (Hin : In f (drive s)).
    { apply (proj1 (filter_In (satisfies (in_folder_query_of n fid)) f (drive s))).
      rewrite Ef. left. reflexivity. }
    assert (He : existsb (fun g => String.eqb (id g) (id f)) (drive s) = true).
    { apply existsb_exists. exists f. split; [exact Hin | apply String.eqb_refl]. }
    repeat progress (cbv beta iota zeta delta [negb]; rewrite ?Hs, ?Hr, ?He).
    do 2 eexists. split; [reflexivity|]. split; reflexivity.
Qed.

Lemma satisfies_bump q i f : satisfies q (bump i f) = satisfies q f.
Proof. unfold bump. destruct (String.eqb (id f) i); reflexivity. Qed.

Lemma filter_map_bump q i l :
  filter (satisfies q) (map (bump i) l) = map (bump i) (filter (satisfies q) l).
Proof.
  induction l as [|f l IH]; [reflexivity|]. cbn [map filter].
  rewrite satisfies_bump. destruct (satisfies q f); cbn [map]; rewrite IH; reflexivity.
Qed.

(** [get_or_create_folder] with a working service. *)
Lemma get_or_create_folder_run s :
  service s = true -> reachable s = true ->
  get_or_create_folder s =
    match filter (satisfies folder_query) (drive s) with
    | f :: _ => (Done tt, with_folder_id (Some (id f)) s)
    | [] =>
        let i := ("file-" ++ Str.of_nat (next_id s))%string in
        (Done tt, with_folder_id (Some i)
                    (with_drive (drive s ++ [mkFile i Config.DRIVE_FOLDER_NAME folder_mime false [] 1])
                       (S (next_id s)) s))
    end.
Proof.
  intros Hs Hr.
  unfold get_or_create_folder, dbind, files_list, files_create, set_folder_id, api.
  repeat progress (cbv beta iota zeta delta [negb]; rewrite ?Hs, ?Hr).
  destruct (filter (satisfies folder_query) (drive s));
    repeat progress (cbv beta iota zeta delta [negb forallb]; rewrite ?Hs, ?Hr); reflexivity.
Qed.

Lemma str_append_nil (a : string) : (a ++ "")%string = a.
Proof. induction a as [|c a IH]; cbn; [reflexivity | rewrite IH; reflexivity]. Qed.

Lemma str_append_assoc (a b c : string) : (a ++ (b ++ c))%string = ((a ++ b) ++ c)%string.
Proof. induction a as [|x a IH]; cbn; [reflexivity | rewrite IH; reflexivity]. Qed.

Lemma basename_from_plain n cur :
  Str.contains "/" n = false -> Str.basename_from n cur = (cur ++ n)%string.
Proof.
  revert cur. induction n as [|c n IH]; intros cur H.
  - cbn [Str.basename_from]. rewrite str_append_nil. reflexivity.
  - cbn [Str.contains Str.starts_with] in H. apply orb_false_iff in H as [Hc H].
    rewrite andb_true_r in Hc. cbn [Str.basename_from]. rewrite Ascii.eqb_sym, Hc.
    rewrite (IH _ H), <- str_append_assoc. reflexivity.
Qed.

Lemma basename_join n :
  Str.contains "/" n = false -> Str.basename (path_join Config.LOCAL_FOLDER n) = n.
Proof. intro H. exact (basename_from_plain n "" H). Qed.

Lemma upload_files_run names s :
  exists s' new,
    DriveUpload.upload_files names s = (Done tt, s') /\ logs s' = logs s ++ new /\
    map (fun l => Dict.get String.eqb l "Object Name") new =
    map (fun n => Some (LStr (Str.basename (path_join Config.LOCAL_FOLDER n))))
      (filter DriveUpload.is_export_file names).
Proof.
  revert s. induction names as [|n names IH]; intro s.
  - exists s, []. rewrite app_nil_r. auto.
  - cbn [DriveUpload.upload_files filter].
    destruct (DriveUpload.is_export_file n).
    + destruct (upload_file_run (path_join Config.LOCAL_FOLDER n) s)
        as (log & s1 & Hrun & _ & Hobj & Hl1).
      destruct (IH (with_logs (logs s1 ++ [log]) s1)) as (s' & new & Hr & Hl & Hm).
      exists s', (log :: new).
      rewrite (dbind_done _ _ s tt (with_logs (logs s1 ++ [log]) s1)).
      * split; [exact Hr|]. split.
        -- rewrite Hl. cbn [logs with_logs]. rewrite Hl1, <- app_assoc. reflexivity.
        -- cbn [map]. rewrite Hobj, Hm. reflexivity.
      * rewrite (dbind_done _ _ s log s1 Hrun). reflexivity.
    + destruct (IH s) as (s' & new & Hr & Hl & Hm).
      exists s', new. rewrite (dbind_done _ _ s tt s eq_refl). auto.
Qed.

End DriveFacts.

Module DriveProperties.
Import GoogleDrive GoogleDriveClient DriveUpload.

(** [get_or_create_folder], with a working service: when Drive has a
    non-trashed ["ELEVENIQ"] folder, the first one listed becomes
    [self.folder_id] and Drive is left as it is; otherwise exactly one
    such folder is created, at the root, and its id is kept. *)
Theorem get_or_create_folder_reuses_or_creates (s : state) :
  service s = true -> reachable s = true ->
  exists s',
    get_or_create_folder s = (Done tt, s') /\
    match filter (satisfies folder_query) (drive s) with
    | f :: _ => drive s' = drive s /\ folder_id s' = Some (id f)
    | [] =>
        drive s' = drive s ++ [mkFile ("file-" ++ Str.of_nat (next_id s))%string
                                 Config.DRIVE_FOLDER_NAME folder_mime false [] 1] /\
        folder_id s' = Some ("file-" ++ Str.of_nat (next_id s))%string
    end.
Proof.
  intros Hs Hr. rewrite (DriveFacts.get_or_create_folder_run s Hs Hr).
  destruct (filter (satisfies folder_query) (drive s));
    (eexists; split; [reflexivity | split; reflexivity]).
Qed.

Lemma get_or_create_folder_reuses_or_creates_witness :
  let s := DriveSample.connected [DriveSample.account_xlsx] 2 None in
  (service s = true /\ reachable s = true) /\
  exists s',
    get_or_create_folder s = (Done tt, s') /\
    match filter (satisfies folder_query) (drive s) with
    | f :: _ => drive s' = drive s /\ folder_id s' = Some (id f)
    | [] =>
        drive s' = drive s ++ [mkFile ("file-" ++ Str.of_nat (next_id s))%string
                                 Config.DRIVE_FOLDER_NAME folder_mime false [] 1] /\
        folder_id s' = Some ("file-" ++ Str.of_nat (next_id s))%string
    end.
Proof.
  intro s. split; [split; reflexivity|].
  exact (get_or_create_folder_reuses_or_creates s eq_refl eq_refl).
Defined.

(** A second [get_or_create_folder] finds the folder the first one chose
    or created: it keeps the same [folder_id] and creates nothing. *)
Theorem get_or_create_folder_idempotent (s s1 : state) :
  service s = true -> reachable s = true ->
  get_or_create_folder s = (Done tt, s1) ->
  exists s2,
    get_or_create_folder s1 = (Done tt, s2) /\
    drive s2 = drive s1 /\ next_id s2 = next_id s1 /\ folder_id s2 = folder_id s1.
Proof.
  intros Hs Hr H. rewrite (DriveFacts.get_or_create_folder_run s Hs Hr) in H.
  assert (Hs1 : forall s0, s0 = s1 -> service s0 = service s -> reachable s0 = reachable s ->
                service s1 = true /\ reachable s1 = true)
    by (intros s0 <- H1 H2; rewrite H1, H2; auto).
  destruct (filter (satisfies folder_query) (drive s)) as [|f fs] eqn:Ef;
    injection H as H; destruct (Hs1 _ H eq_refl eq_refl) as [Hs' Hr'];
    rewrite (DriveFacts.get_or_create_folder_run s1 Hs' Hr'); subst s1.
  - cbn [drive with_folder_id with_drive].
    rewrite filter_app, Ef. cbn [filter app].
    match goal with
    | |- context[satisfies folder_query ?f] =>
        replace (satisfies folder_query f) with true by reflexivity
    end.
    eexists. split; [reflexivity | repeat apply conj; reflexivity].
  - cbn [drive with_folder_id].
    rewrite Ef. eexists. split; [reflexivity | repeat apply conj; reflexivity].
Qed.

Lemma get_or_create_folder_idempotent_witness :
  let s := DriveSample.connected [DriveSample.account_xlsx] 2 None in
  exists s1,
    (service s = true /\ reachable s = true /\ get_or_create_folder s = (Done tt, s1)) /\
    exists s2,
      get_or_create_folder s1 = (Done tt, s2) /\
      drive s2 = drive s1 /\ next_id s2 = next_id s1 /\ folder_id s2 = folder_id s1.
Proof.
  intro s. set (s1 := snd (get_or_create_folder s)).
  assert (H : get_or_create_folder s = (Done tt, s1)) by (vm_compute; reflexivity).
  exists s1. split; [split; [reflexivity | split; [reflexivity | exact H]]|].
  exact (get_or_create_folder_idempotent s s1 eq_refl eq_refl H).
Defined.

(** [upload_file] never raises: any error of the upload is caught and
    reported in the log it returns. The log has the seven keys, in this
    order, and its ["Object Name"] is the base name of the path. *)
Theorem upload_file_never_raises (file_path : string) (s : state) :
  exists log s',
    upload_file file_path s = (Done log, s') /\
    Dict.keys log = ["Object Name"; "Operation"; "Start Date Time"; "End Date Time";
                     "Duration (seconds)"; "Is Success"; "Message"] /\
    Dict.get String.eqb log "Object Name" = Some (LStr (Str.basename file_path)).
Proof.
  destruct (DriveFacts.upload_file_run file_path s) as (log & s' & H1 & H2 & H3 & _).
  exists log, s'. auto.
Qed.

(** A successful upload, with a working service, an existing folder and
    the local file present: when the folder already holds non-trashed
    files of that name, the first one listed gets the new content (a new
    revision) and no file is created; otherwise one file of that name is
    created in the folder. *)
Theorem upload_file_updates_or_creates (file_path fid : string) (s : state) :
  service s = true -> reachable s = true -> folder_id s = Some fid -> live_id s fid = true ->
  existsb (fun n => String.eqb (path_join Config.LOCAL_FOLDER n) file_path) (local s) = true ->
  exists log s',
    upload_file file_path s = (Done log, s') /\
    Dict.get String.eqb log "Is Success" = Some (LBool true) /\
    drive s' =
      match filter (satisfies (in_folder_query_of (Str.basename file_path) fid)) (drive s) with
      | f :: _ => map (bump (id f)) (drive s)
      | [] => drive s ++ [mkFile ("file-" ++ Str.of_nat (next_id s))%string
                            (Str.basename file_path) (guess_type file_path) false [fid] 1]
      end.
Proof.
  intros Hs Hr Hf Hl Hm.
  unfold upload_file.
  rewrite (DriveFacts.dbind_done dnow _ s (dclock s) (with_clock (S (dclock s)) s) eq_refl).
  unfold dtry.
  destruct (DriveFacts.upload_try_success file_path (Str.basename file_path)
              [("Object Name", LStr (Str.basename file_path)); ("Operation", LStr "Upload Data");
               ("Start Date Time", LTime (dclock s))]
              (dclock s) (with_clock (S (dclock s)) s) fid Hs Hr Hf Hm Hl)
    as (l & s' & Hrun & -> & Hd).
  rewrite Hrun. do 2 eexists. split; [reflexivity|]. split; [reflexivity | exact Hd].
Qed.

Lemma upload_file_updates_or_creates_witness :
  let s := DriveSample.connected [DriveSample.folder; DriveSample.account_xlsx] 2 (Some "file-0") in
  (service s = true /\ reachable s = true /\ folder_id s = Some "file-0" /\
   live_id s "file-0" = true /\
   existsb (fun n => String.eqb (path_join Config.LOCAL_FOLDER n) "files/Account.xlsx") (local s)
   = true) /\
  exists log s',
    upload_file "files/Account.xlsx" s = (Done log, s') /\
    Dict.get String.eqb log "Is Success" = Some (LBool true) /\
    drive s' =
      match filter (satisfies (in_folder_query_of (Str.basename "files/Account.xlsx") "file-0"))
              (drive s) with
      | f :: _ => map (bump (id f)) (drive s)
      | [] => drive s ++ [mkFile ("file-" ++ Str.of_nat (next_id s))%string
                            (Str.basename "files/Account.xlsx") (guess_type "files/Account.xlsx")
                            false ["file-0"] 1]
      end.
Proof.
  intro s. split; [repeat split; reflexivity|].
  exact (upload_file_updates_or_creates "files/Account.xlsx" "file-0" s
           eq_refl eq_refl eq_refl eq_refl eq_refl).
Defined.

(** Uploading never duplicates: after a successful upload, the folder
    holds as many non-trashed files of that name as before, and exactly
    one when it held none. *)
Theorem upload_file_no_duplicates (file_path fid : string) (s : state) :
  service s = true -> reachable s = true -> folder_id s = Some fid -> live_id s fid = true ->
  existsb (fun n => String.eqb (path_join Config.LOCAL_FOLDER n) file_path) (local s) = true ->
  exists log s',
    upload_file file_path s = (Done log, s') /\
    length (filter (satisfies (in_folder_query_of (Str.basename file_path) fid)) (drive s')) =
    Nat.max 1 (length (filter (satisfies (in_folder_query_of (Str.basename file_path) fid))
                         (drive s))).
Proof.
  intros Hs Hr Hf Hl Hm.
  unfold upload_file.
  rewrite (DriveFacts.dbind_done dnow _ s (dclock s) (with_clock (S (dclock s)) s) eq_refl).
  unfold dtry.
  destruct (DriveFacts.upload_try_success file_path (Str.basename file_path)
              [("Object Name", LStr (Str.basename file_path)); ("Operation", LStr "Upload Data");
               ("Start Date Time", LTime (dclock s))]
              (dclock s) (with_clock (S (dclock s)) s) fid Hs Hr Hf Hm Hl)
    as (l & s' & Hrun & _ & Hd).
  rewrite Hrun. do 2 eexists. split; [reflexivity|].
  rewrite Hd. cbn [drive with_clock] in *.
  destruct (filter (satisfies (in_folder_query_of (Str.basename file_path) fid)) (drive s))
    as [|f fs] eqn:Ef.
  - rewrite filter_app, Ef. cbn [filter app].
    match goal with
    | |- context[satisfies ?q ?f] => replace (satisfies q f) with true
    end; [reflexivity|].
    unfold satisfies. cbn [trashed name mimeType parents existsb negb andb].
    rewrite String.eqb_refl. cbn [orb]. symmetry. apply orb_true_r.
  - rewrite DriveFacts.filter_map_bump, length_map, Ef. cbn [length]. lia.
Qed.

Lemma upload_file_no_duplicates_witness :
  let s := DriveSample.connected [DriveSample.folder; DriveSample.account_xlsx] 2 (Some "file-0") in
  (service s = true /\ reachable s = true /\ folder_id s = Some "file-0" /\
   live_id s "file-0" = true /\
   existsb (fun n => String.eqb (path_join Config.LOCAL_FOLDER n) "files/Opportunity.csv") (local s)
   = true) /\
  exists log s',
    upload_file "files/Opportunity.csv" s = (Done log, s') /\
    length (filter (satisfies (in_folder_query_of (Str.basename "files/Opportunity.csv") "file-0"))
              (drive s')) =
    Nat.max 1 (length (filter (satisfies (in_folder_query_of (Str.basename "files/Opportunity.csv")
                                            "file-0")) (drive s))).
Proof.
  intro s. split; [repeat split; reflexivity|].
  exact (upload_file_no_duplicates "files/Opportunity.csv" "file-0" s
           eq_refl eq_refl eq_refl eq_refl eq_refl).
Defined.

(** A failed upload (["Is Success"] false in its log) leaves Drive as it
    was: no file is created or updated. *)
Theorem upload_file_failure_keeps_drive (file_path : string) (s s' : state) (log : upload_log) :
  upload_file file_path s = (Done log, s') ->
  Dict.get String.eqb log "Is Success" = Some (LBool false) ->
  drive s' = drive s /\ next_id s' = next_id s.
Proof.
  unfold upload_file.
  rewrite (DriveFacts.dbind_done dnow _ s (dclock s) (with_clock (S (dclock s)) s) eq_refl).
  unfold dtry.
  destruct (upload_try file_path (Str.basename file_path) _ (dclock s)
              (with_clock (S (dclock s)) s)) as [[l|e] s1] eqn:E; intros H Hf.
  - apply DriveFacts.upload_try_done in E as ((t' & ->) & _).
    injection H as <- _. cbv in Hf. discriminate Hf.
  - apply DriveFacts.upload_try_raised in E. subst s1.
    injection H as _ <-. split; reflexivity.
Qed.

Lemma upload_file_failure_keeps_drive_witness :
  let s := DriveSample.connected [DriveSample.account_xlsx] 2 (Some "file-0") in
  exists log s',
    (upload_file "files/Opportunity.csv" s = (Done log, s') /\
     Dict.get String.eqb log "Is Success" = Some (LBool false)) /\
    drive s' = drive s /\ next_id s' = next_id s.
Proof.
  intro s.
  set (r := upload_file "files/Opportunity.csv" s).
  set (log := match fst r with Done l => l | Raised _ => [] end).
  assert (H : upload_file "files/Opportunity.csv" s = (Done log, snd r))
    by (vm_compute; reflexivity).
  assert (Hf : Dict.get String.eqb log "Is Success" = Some (LBool false))
    by (vm_compute; reflexivity).
  exists log, (snd r). split; [split; [exact H | exact Hf]|].
  exact (upload_file_failure_keeps_drive "files/Opportunity.csv" s (snd r) log H Hf).
Defined.

(** The upload loop of [run] appends one log per listed file ending in
    [.xlsx] or [.csv], in the order [os.listdir] lists them, whatever the
    uploads do; other files get no log. Each log's ["Object Name"] is the
    file name. *)
Theorem upload_files_one_log_per_export (filenames : list string) (s : state) :
  Forall (fun n => Str.contains "/" n = false) filenames ->
  exists s' new,
    upload_files filenames s = (Done tt, s') /\ logs s' = logs s ++ new /\
    map (fun l => Dict.get String.eqb l "Object Name") new =
    map (fun n => Some (LStr n)) (filter is_export_file filenames).
Proof.
  intro Hall.
  destruct (DriveFacts.upload_files_run filenames s) as (s' & new & H1 & H2 & H3).
  exists s', new. split; [exact H1|]. split; [exact H2|]. rewrite H3.
  apply map_ext_in. intros n Hn. apply filter_In in Hn as [Hn _].
  rewrite (DriveFacts.basename_join n (proj1 (Forall_forall _ _) Hall n Hn)). reflexivity.
Qed.

Lemma upload_files_one_log_per_export_witness :
  let s := DriveSample.connected [DriveSample.folder] 1 (Some "file-0") in
  Forall (fun n => Str.contains "/" n = false) (local s) /\
  exists s' new,
    upload_files (local s) s = (Done tt, s') /\ logs s' = logs s ++ new /\
    map (fun l => Dict.get String.eqb l "Object Name") new =
    map (fun n => Some (LStr n)) (filter is_export_file (local s)).
Proof.
  intro s.
  assert (H : Forall (fun n => Str.contains "/" n = false) (local s))
    by (repeat constructor).
  split; [exact H | exact (upload_files_one_log_per_export (local s) s H)].
Defined.

(** Without the credentials file, [authenticate] raises
    [FileNotFoundError] for it (the installed-app flow reads its client
    secrets from the same file) and builds no service. *)
Theorem authenticate_without_credentials_file (s : state) :
  cred_file s = None ->
  authenticate s = (Raised (FileNotFoundError Config.CREDENTIALS_FILE), s).
Proof.
  intro H. unfold authenticate, dbind, load_creds, run_flow.
  repeat progress (cbv beta iota zeta delta [negb]; rewrite ?H). reflexivity.
Qed.

Lemma authenticate_without_credentials_file_witness :
  let s := DriveSample.before_auth None true in
  cred_file s = None /\
  authenticate s = (Raised (FileNotFoundError Config.CREDENTIALS_FILE), s).
Proof. intro s. split; [reflexivity | exact (authenticate_without_credentials_file s eq_refl)]. Defined.

(** Valid stored credentials are used as they are: the credentials file
    is not rewritten, the service is built and the success message
    printed. *)
Theorem authenticate_valid_token (s : state) (j : cred_json) (c : creds) :
  cred_file s = Some j -> authorized_user j = Some c -> valid c = true ->
  exists s',
    authenticate s = (Done tt, s') /\ cred_file s' = cred_file s /\ service s' = true /\
    out s' = out s ++ ["Google Drive authentication successful!"].
Proof.
  intros Hf Ha Hv. unfold authenticate, dbind, load_creds.
  repeat progress (cbv beta iota zeta delta [negb]; rewrite ?Hf, ?Ha, ?Hv).
  eexists. split; [reflexivity|]. split; [exact Hf|]. split; reflexivity.
Qed.

Lemma authenticate_valid_token_witness :
  let s := DriveSample.before_auth (DriveSample.token DriveSample.fresh) true in
  (cred_file s = Some (mkCredJson (Some DriveSample.fresh) false) /\
   authorized_user (mkCredJson (Some DriveSample.fresh) false) = Some DriveSample.fresh /\
   valid DriveSample.fresh = true) /\
  exists s',
    authenticate s = (Done tt, s') /\ cred_file s' = cred_file s /\ service s' = true /\
    out s' = out s ++ ["Google Drive authentication successful!"].
Proof.
  intro s. split; [repeat split; reflexivity|].
  exact (authenticate_valid_token s _ _ eq_refl eq_refl eq_refl).
Defined.

(** Expired credentials with a refresh token are refreshed, and the
    credentials file is overwritten with the refreshed token alone:
    whatever else it held is gone. *)
Theorem authenticate_refreshes_token (s : state) (j : cred_json) (c : creds) :
  cred_file s = Some j -> authorized_user j = Some c -> valid c = false ->
  expired c = true -> refresh_token c = true -> refresh_ok s = true ->
  exists s',
    authenticate s = (Done tt, s') /\
    cred_file s' = Some (mkCredJson (Some (mkCreds true false true)) false) /\
    service s' = true.
Proof.
  intros Hf Ha Hv He Ht Ho. unfold authenticate, dbind, load_creds, refresh.
  repeat progress (cbv beta iota zeta delta [negb andb]; rewrite ?Hf, ?Ha, ?Hv, ?He, ?Ht, ?Ho).
  eexists. split; [reflexivity|]. split; reflexivity.
Qed.

Lemma authenticate_refreshes_token_witness :
  let s := DriveSample.before_auth (DriveSample.token DriveSample.stale) true in
  (cred_file s = Some (mkCredJson (Some DriveSample.stale) false) /\
   authorized_user (mkCredJson (Some DriveSample.stale) false) = Some DriveSample.stale /\
   valid DriveSample.stale = false /\ expired DriveSample.stale = true /\
   refresh_token DriveSample.stale = true /\ refresh_ok s = true) /\
  exists s',
    authenticate s = (Done tt, s') /\
    cred_file s' = Some (mkCredJson (Some (mkCreds true false true)) false) /\
    service s' = true.
Proof.
  intro s. split; [repeat split; reflexivity|].
  exact (authenticate_refreshes_token s _ _ eq_refl eq_refl eq_refl eq_refl eq_refl eq_refl).
Defined.

(** [authenticate] succeeds only when the credentials file holds an
    authorized user's token: a file holding client secrets alone, or no
    file, makes it raise. On success the service is built. *)
Theorem authenticate_needs_authorized_user (s s' : state) :
  authenticate s = (Done tt, s') ->
  (exists j c, cred_file s = Some j /\ authorized_user j = Some c) /\ service s' = true.
Proof.
  intro H. unfold authenticate, dbind, load_creds, refresh, run_flow, write_token,
    build_service, dprint, dret in H.
  destruct (cred_file s) as [j|] eqn:Ef; [destruct (authorized_user j) as [c|] eqn:Ea|].
  - repeat (cbv beta iota zeta delta [negb andb] in H; rewrite ?Ef, ?Ea in H;
            first [ discriminate H
                  | match type of H with context[if ?b then _ else _] => destruct b end ]);
      injection H as <-; (split; [exists j, c; split; [reflexivity | exact Ea] | reflexivity]).
  - cbv beta iota zeta in H. discriminate H.
  - repeat (cbv beta iota zeta delta [negb andb] in H; rewrite ?Ef in H;
            first [ discriminate H
                  | match type of H with context[if ?b then _ else _] => destruct b end ]).
Qed.

Lemma authenticate_needs_authorized_user_witness :
  let s := DriveSample.before_auth (DriveSample.token DriveSample.fresh) true in
  exists s',
    authenticate s = (Done tt, s') /\
    (exists j c, cred_file s = Some j /\ authorized_user j = Some c) /\ service s' = true.
Proof.
  intro s. set (s' := snd (authenticate s)).
  assert (H : authenticate s = (Done tt, s')) by (vm_compute; reflexivity).
  exists s'. split; [exact H | exact (authenticate_needs_authorized_user s s' H)].
Defined.

(** Once the token file [authenticate] writes holds credentials that are
    neither valid nor refreshable (the refresh is refused, or there is no
    refresh token), [authenticate] raises: it never falls back to the
    installed-app flow, as that file holds no client secrets. Nothing is
    changed. *)
Theorem authenticate_no_flow_fallback (s : state) (c : creds) :
  cred_file s = Some (mkCredJson (Some c) false) -> valid c = false ->
  (expired c && refresh_token c && refresh_ok s) = false ->
  exists e, authenticate s = (Raised e, s).
Proof.
  intros Hf Hv Hb. unfold authenticate, dbind, load_creds, refresh, run_flow.
  repeat progress (cbv beta iota zeta delta [negb authorized_user client_config]; rewrite ?Hf, ?Hv).
  destruct (expired c && refresh_token c) eqn:E.
  - cbn [andb] in Hb.
    repeat progress (cbv beta iota zeta delta [negb authorized_user client_config]; rewrite ?Hb). eexists. reflexivity.
  - repeat progress (cbv beta iota zeta delta [negb authorized_user client_config]; rewrite ?Hf). eexists. reflexivity.
Qed.

Lemma authenticate_no_flow_fallback_witness :
  let s := DriveSample.before_auth (DriveSample.token DriveSample.stale) false in
  (cred_file s = Some (mkCredJson (Some DriveSample.stale) false) /\
   valid DriveSample.stale = false /\
   (expired DriveSample.stale && refresh_token DriveSample.stale && refresh_ok s) = false) /\
  exists e, authenticate s = (Raised e, s).
Proof.
  intro s. split; [repeat split; reflexivity|].
  exact (authenticate_no_flow_fallback s DriveSample.stale eq_refl eq_refl eq_refl).
Defined.

End DriveProperties.
